(** * A shallow embedding of [chatbot.py] (JoSi placement chatbot)

    The model follows the source function by function.  Python values that
    flow through the program (JSON results, questions lists, the return
    value of [call_gemini_api]) are [pyval]; Python exceptions are [exn];
    the GUI object [EnhancedChatbotGUI] is the record [Gui], and its methods
    are programs in a small state-and-exception monad [M] whose exceptions
    keep the state reached when they were raised (Python keeps attribute
    updates made before a raise).

    Strings are Stdlib [string]s (ASCII); [str.strip] and [str.lower] are
    modelled on the ASCII range.  The three external collaborators are
    Section variables: the HTTP service ([post]), the JSON decoder
    ([json_loads]) and the profanity detector ([contains_profanity]). *)

From Stdlib Require Import String Ascii List ZArith Lia Bool Relations.
Import ListNotations.
Open Scope string_scope.
Set Warnings "-register-all".

(* ------------------------------------------------------------------ *)
(** ** Python values and exceptions *)

Inductive pyval : Type :=
| PNone
| PBool (b : bool)
| PInt (z : Z)
| PStr (s : string)
| PList (l : list pyval)
| PDict (d : list (string * pyval)).

(** Keys used with [__getitem__]: [d["text"]] or [l[0]]. *)
Inductive pykey : Type :=
| KStr (k : string)
| KInt (i : Z).

Inductive exn : Type :=
| KeyError (arg : string)
| IndexError (msg : string)
| TypeError (msg : string)
| ValueError (msg : string)
| AttributeError (msg : string)
| JSONDecodeError (msg : string)
| RequestException (msg : string).

(** [str(e)] *)
Definition exn_str (e : exn) : string :=
  match e with
  | KeyError a => a
  | IndexError m | TypeError m | ValueError m | AttributeError m
  | JSONDecodeError m | RequestException m => m
  end.

(** The result of a pure Python computation: a value or an exception. *)
Inductive res (A : Type) : Type :=
| Ok (a : A)
| Exc (e : exn).
Arguments Ok {A} a.
Arguments Exc {A} e.

Definition res_bind {A B} (r : res A) (k : A -> res B) : res B :=
  match r with Ok a => k a | Exc e => Exc e end.

(** The outcome of a method of the GUI: it returns, raises, or never
    returns ([Hang], an endless loop). *)
Inductive outcome (A : Type) : Type :=
| Ret (a : A)
| Throw (e : exn)
| Hang.
Arguments Ret {A} a.
Arguments Throw {A} e.
Arguments Hang {A}.

(* ------------------------------------------------------------------ *)
(** ** String helpers (the [str] methods the program uses) *)

Definition chr (n : nat) : string := String (ascii_of_nat n) EmptyString.
Definition nl : string := chr 10.
Definition dq : string := chr 34.
Definition sq : string := chr 39.

(** [str.isspace] on ASCII: \t \n \v \f \r, \x1c-\x1f and space. *)
Definition is_space (c : ascii) : bool :=
  let n := nat_of_ascii c in
  (((9 <=? n) && (n <=? 13)) || ((28 <=? n) && (n <=? 32)))%nat.

Fixpoint lstrip (s : string) : string :=
  match s with
  | EmptyString => EmptyString
  | String c r => if is_space c then lstrip r else s
  end.

Definition rev_string (s : string) : string :=
  string_of_list_ascii (rev (list_ascii_of_string s)).

(** [str.strip()] *)
Definition py_strip (s : string) : string :=
  rev_string (lstrip (rev_string (lstrip s))).

Definition lower_ascii (c : ascii) : ascii :=
  let n := nat_of_ascii c in
  if ((65 <=? n) && (n <=? 90))%nat then ascii_of_nat (n + 32) else c.

(** [str.lower()] *)
Fixpoint py_lower (s : string) : string :=
  match s with
  | EmptyString => EmptyString
  | String c r => String (lower_ascii c) (py_lower r)
  end.

(** [str.startswith(p)] *)
Definition py_startswith (s p : string) : bool := String.prefix p s.

(** [str.find(c)]: index of the first occurrence, or -1. *)
Fixpoint find_from (c : ascii) (s : string) (i : Z) : Z :=
  match s with
  | EmptyString => (-1)%Z
  | String c' r => if Ascii.eqb c c' then i else find_from c r (i + 1)
  end.
Definition py_find (s : string) (c : ascii) : Z := find_from c s 0.

(** [str.rfind(c)]: index of the last occurrence, or -1. *)
Fixpoint rfind_from (c : ascii) (s : string) (i : Z) (best : Z) : Z :=
  match s with
  | EmptyString => best
  | String c' r => rfind_from c r (i + 1) (if Ascii.eqb c c' then i else best)
  end.
Definition py_rfind (s : string) (c : ascii) : Z := rfind_from c s 0 (-1).

(** Decimal rendering of integers ([str(int)], f-string [{n}]). *)
Fixpoint digits_acc (fuel : nat) (n : N) (acc : string) : string :=
  match fuel with
  | O => acc
  | S f =>
      let acc' := String (ascii_of_N (48 + N.modulo n 10)) acc in
      if N.ltb n 10 then acc' else digits_acc f (N.div n 10) acc'
  end.
Definition N_str (n : N) : string := digits_acc (S (N.size_nat n)) n EmptyString.
Definition Z_str (z : Z) : string :=
  if (z <? 0)%Z then "-" ++ N_str (Z.to_N (- z)) else N_str (Z.to_N z).
Definition nat_str (n : nat) : string := N_str (N.of_nat n).

(* ------------------------------------------------------------------ *)
(** ** Python operations on values *)

Definition type_name (v : pyval) : string :=
  match v with
  | PNone => "NoneType" | PBool _ => "bool" | PInt _ => "int"
  | PStr _ => "str" | PList _ => "list" | PDict _ => "dict"
  end.

(** [len(v)] *)
Definition py_len (v : pyval) : res nat :=
  match v with
  | PStr s => Ok (String.length s)
  | PList l => Ok (List.length l)
  | PDict d => Ok (List.length d)
  | _ => Exc (TypeError ("object of type " ++ sq ++ type_name v ++ sq ++ " has no len()"))
  end.

(** Truth value of [v] ([if v:]). *)
Definition py_truthy (v : pyval) : bool :=
  match v with
  | PNone => false
  | PBool b => b
  | PInt z => negb (Z.eqb z 0)
  | PStr s => negb (String.eqb s "")
  | PList l => negb (Nat.eqb (List.length l) 0)
  | PDict d => negb (Nat.eqb (List.length d) 0)
  end.

Fixpoint assoc_lookup (k : string) (d : list (string * pyval)) : option pyval :=
  match d with
  | [] => None
  | (k', v) :: d' => if String.eqb k k' then Some v else assoc_lookup k d'
  end.

(** Python sequence indexing, negative indices counting from the end. *)
Definition seq_index (n : nat) (i : Z) : option nat :=
  let j := if (i <? 0)%Z then (Z.of_nat n + i)%Z else i in
  if ((0 <=? j) && (j <? Z.of_nat n))%Z then Some (Z.to_nat j) else None.

(** [v[k]] *)
Definition py_getitem (v : pyval) (k : pykey) : res pyval :=
  match v, k with
  | PDict d, KStr s =>
      match assoc_lookup s d with
      | Some x => Ok x
      | None => Exc (KeyError (sq ++ s ++ sq))
      end
  | PDict _, KInt i => Exc (KeyError (Z_str i))
  | PList l, KInt i =>
      match seq_index (List.length l) i with
      | Some j => match nth_error l j with Some x => Ok x | None => Exc (IndexError "list index out of range") end
      | None => Exc (IndexError "list index out of range")
      end
  | PList _, KStr _ => Exc (TypeError "list indices must be integers or slices, not str")
  | PStr s, KInt i =>
      match seq_index (String.length s) i with
      | Some j => match String.get j s with
                  | Some c => Ok (PStr (String c EmptyString))
                  | None => Exc (IndexError "string index out of range") end
      | None => Exc (IndexError "string index out of range")
      end
  | PStr _, KStr _ => Exc (TypeError "string indices must be integers, not 'str'")
  | _, _ => Exc (TypeError (sq ++ type_name v ++ sq ++ " object is not subscriptable"))
  end.


(** [repr(v)] and [str(v)] (f-string fields) on ASCII data. *)
Definition hex_digit (n : nat) : ascii :=
  match String.get n "0123456789abcdef" with Some c => c | None => "0"%char end.

Definition repr_char (quote : ascii) (c : ascii) : string :=
  let n := nat_of_ascii c in
  if Ascii.eqb c quote || Ascii.eqb c "\"%char then String "\"%char (String c EmptyString)
  else if (n =? 9)%nat then "\t"
  else if (n =? 10)%nat then "\n"
  else if (n =? 13)%nat then "\r"
  else if ((n <? 32) || (n =? 127))%nat
  then String "\"%char (String "x"%char (String (hex_digit (n / 16)) (String (hex_digit (n mod 16)) EmptyString)))
  else String c EmptyString.

Fixpoint has_char (c : ascii) (s : string) : bool :=
  match s with
  | EmptyString => false
  | String c' r => Ascii.eqb c c' || has_char c r
  end.

Fixpoint repr_body (quote : ascii) (s : string) : string :=
  match s with
  | EmptyString => EmptyString
  | String c r => repr_char quote c ++ repr_body quote r
  end.

(** Python quotes with a single quote unless the text has a single quote
    and no double quote. *)
Definition repr_str (s : string) : string :=
  let quote := if has_char "'"%char s && negb (has_char (ascii_of_nat 34) s)
               then ascii_of_nat 34 else "'"%char in
  String quote (repr_body quote s ++ String quote EmptyString).

Fixpoint py_repr (v : pyval) : string :=
  match v with
  | PNone => "None"
  | PBool true => "True"
  | PBool false => "False"
  | PInt z => Z_str z
  | PStr s => repr_str s
  | PList l => "[" ++ String.concat ", " (map py_repr l) ++ "]"
  | PDict d =>
      "{" ++ String.concat ", "
               (map (fun kv => repr_str (fst kv) ++ ": " ++ py_repr (snd kv)) d) ++ "}"
  end.

Definition py_str (v : pyval) : string :=
  match v with PStr s => s | _ => py_repr v end.

(* ------------------------------------------------------------------ *)
(** ** Constants: [COLLEGE_INFO], [SYSTEM_PROMPT], the messages *)

Definition college_about : string :=
  "St. Xavier's College, Mumbai, is a leading institution offering a wide range of "
  ++ "undergraduate and postgraduate courses in Arts, Science, Commerce, and Management. "
  ++ "Known for its rich legacy and distinguished alumni, the college emphasizes "
  ++ "holistic student development.".

Definition college_courses : list string :=
  [ "Bachelor of Arts (B.A.)"; "Bachelor of Science (B.Sc.)";
    "Bachelor of Commerce (B.Com.)"; "Bachelor of Management Studies (BMS)";
    "Bachelor of Mass Media (BMM)"; "M.A. in Public Policy";
    "M.Sc. in Biotechnology"; "PhD Programs in select disciplines" ].

Definition placement_head : string := "Ms.Radhika Tendulkar".
Definition placement_email : string := "radhika.tendulkar@xaviers.edu".
Definition highest_package_ever : Z := 24.
Definition placement_latest_info : string :=
  "The 2023 placement season saw record participation from 55 companies, "
  ++ "with an average package of 8 LPA.".

(** The f-string [SYSTEM_PROMPT], one element per source line. *)
Definition SYSTEM_PROMPT : string :=
  String.concat nl
  [ "";
    "You are JoSi, the official placement and academic guide chatbot for St. Xavier's College, Mumbai. ";
    "Use the following knowledge to answer queries precisely:";
    "";
    "**College Data**:";
    "About: " ++ college_about;
    "Available Courses: " ++ String.concat ", " college_courses;
    "";
    "**Placement Cell**:";
    "Head: " ++ placement_head;
    "Email: " ++ placement_email;
    "Highest Package Ever: " ++ Z_str highest_package_ever ++ " LPA";
    "Latest Info: " ++ placement_latest_info;
    "";
    "You can provide:";
    " - Placement guidance";
    " - Interview prep";
    " - Course suggestions";
    " - Info about the college’s history or academic programs";
    "";
    "**Important**:";
    "1. If a user’s text has profanity or offensive language, politely refuse to answer further.";
    "2. For the " ++ dq ++ "Placement Test," ++ dq ++ " ask 5 technical + 5 behavioral questions one-by-one. ";
    "   Collect each answer, then evaluate all at the end.";
    "3. Use short paragraphs and **Markdown** formatting (headings `###`, bullets, bold, etc.).";
    "4. Highest package is exactly 24 LPA, be precise if asked.";
    "";
    "NOTE: If you are returning data for a " ++ dq ++ "company check," ++ dq
      ++ " respond EXACTLY with " ++ dq ++ "VALID" ++ dq ++ " or " ++ dq ++ "INVALID"
      ++ dq ++ " and nothing else.";
    "" ].

(** The prompt built by [gemini_check_company]. *)
Definition check_prompt (company_name : string) : string :=
  String.concat nl
  [ "";
    "Check if the company name " ++ dq ++ company_name ++ dq ++ " is recognized in the context";
    "of campus placements at St. Xavier's College, Mumbai.";
    "";
    "If yes, respond EXACTLY with " ++ dq ++ "VALID" ++ dq ++ ".";
    "Otherwise respond EXACTLY with " ++ dq ++ "INVALID" ++ dq ++ ".";
    "";
    "IMPORTANT: No extra text or explanation.";
    "" ].

(** The prompt built by [gemini_generate_questions]. *)
Definition questions_prompt (role : string) : string :=
  String.concat nl
  [ "";
    "Generate exactly 5 technical interview questions and 5 behavioral interview questions";
    "for the role: " ++ dq ++ role ++ dq ++ " at St. Xavier's College campus placements.";
    "- If the role is IT/software related, include at least 2 coding or programming questions.";
    "Return ONLY valid JSON, with keys:";
    "  " ++ dq ++ "technical_questions" ++ dq ++ ": <array of 5 strings>,";
    "  " ++ dq ++ "behavioral_questions" ++ dq ++ ": <array of 5 strings>.";
    "No code fences, no extra commentary.";
    "" ].

(** The fallback lists of [gemini_generate_questions]. *)
Definition fallback_tech : list string :=
  [ "Explain what OOP is.";
    "What is a database index?";
    "How does a binary search work?";
    "What is an API, and how do you use it?";
    "Describe how you would optimize a slow SQL query." ].

Definition fallback_beh : list string :=
  [ "Tell me about a challenge you overcame in a team.";
    "How do you handle tight deadlines?";
    "Describe a time you received critical feedback.";
    "What does work-life balance mean to you?";
    "What motivates you to succeed?" ].

Definition fallback_questions : pyval * pyval :=
  (PList (map PStr fallback_tech), PList (map PStr fallback_beh)).

(** Fixed texts of the GUI. *)
Definition profanity_refusal : string := "Sorry, I can't respond to that language.".
Definition get_response_refusal : string := "I'm sorry, but I cannot respond to that.".
Definition not_recognized_msg : string :=
  "That company is **NOT recognized** for campus placements (or the model isn't sure). "
  ++ "Please try another company name.".
Definition exited_msg : string := "Exited test mode. How else can I help you?".
Definition start_msg : string :=
  "Starting placement test!" ++ nl
  ++ "Please enter a **company name** you believe visits St. Xavier's College for placements:".
Definition first_question_msg : string := "Excellent! Let's begin with the first question:".

(* ------------------------------------------------------------------ *)
(** ** The GUI object and its state-and-exception monad *)

(** A conversation entry [{'sender': ..., 'text': ...}]. *)
Record Turn := mkTurn { sender : string; text : string }.

(** [TestManager]: the [in_test] flag, [question_index] and [test_data]. *)
Record TestManager := mkTM {
  in_test : bool;
  question_index : nat;
  company : string;
  role : string;
  technical_questions : pyval;
  behavioral_questions : pyval;
  user_answers : list string }.

(** [TestManager()] *)
Definition new_TestManager : TestManager :=
  mkTM false 0 "" "" (PList []) (PList []) [].

(** The attributes of [EnhancedChatbotGUI] the logic reads or writes.
    [chat_display] lists the messages passed to [add_message]
    (sender, text, is_error); [requests_sent] records the JSON bodies of the
    HTTP requests made by [call_gemini_api], the observable network traffic. *)
Record Gui := mkGui {
  conversation_history : list Turn;
  test_manager : TestManager;
  chat_display : list (string * string * bool);
  is_processing : bool;
  requests_sent : list pyval }.

Definition M (A : Type) : Type := Gui -> Gui * outcome A.

Definition retM {A} (a : A) : M A := fun g => (g, Ret a).
Definition bindM {A B} (m : M A) (k : A -> M B) : M B :=
  fun g => match m g with
           | (g', Ret a) => k a g'
           | (g', Throw e) => (g', Throw e)
           | (g', Hang) => (g', Hang)
           end.
Definition raise {A} (e : exn) : M A := fun g => (g, Throw e).
Definition liftR {A} (r : res A) : M A :=
  fun g => match r with Ok a => (g, Ret a) | Exc e => (g, Throw e) end.
Definition getM : M Gui := fun g => (g, Ret g).
Definition modifyM (f : Gui -> Gui) : M unit := fun g => (f g, Ret tt).
(** [try: m except Exception as e: h(e)]; an endless loop is not caught. *)
Definition catchM {A} (m : M A) (h : exn -> M A) : M A :=
  fun g => match m g with
           | (g', Throw e) => h e g'
           | r => r
           end.

Declare Scope monad_scope.
Notation "x <- m ;; k" := (bindM m (fun x => k))
  (at level 61, m at next level, right associativity) : monad_scope.
Notation "m ;; k" := (bindM m (fun _ => k))
  (at level 61, right associativity) : monad_scope.
Open Scope monad_scope.

Definition set_history (h : list Turn) (g : Gui) : Gui :=
  mkGui h (test_manager g) (chat_display g) (is_processing g) (requests_sent g).
Definition set_tm (tm : TestManager) (g : Gui) : Gui :=
  mkGui (conversation_history g) tm (chat_display g) (is_processing g) (requests_sent g).
Definition set_display (d : list (string * string * bool)) (g : Gui) : Gui :=
  mkGui (conversation_history g) (test_manager g) d (is_processing g) (requests_sent g).
Definition set_processing (b : bool) (g : Gui) : Gui :=
  mkGui (conversation_history g) (test_manager g) (chat_display g) b (requests_sent g).
Definition log_request (r : pyval) (g : Gui) : Gui :=
  mkGui (conversation_history g) (test_manager g) (chat_display g) (is_processing g)
        (requests_sent g ++ [r]).

Definition getTM : M TestManager := g <- getM ;; retM (test_manager g).
Definition modifyTM (f : TestManager -> TestManager) : M unit :=
  modifyM (fun g => set_tm (f (test_manager g)) g).

Definition tm_set_in_test (b : bool) (t : TestManager) : TestManager :=
  mkTM b (question_index t) (company t) (role t) (technical_questions t)
       (behavioral_questions t) (user_answers t).
Definition tm_set_index (i : nat) (t : TestManager) : TestManager :=
  mkTM (in_test t) i (company t) (role t) (technical_questions t)
       (behavioral_questions t) (user_answers t).
Definition tm_set_company (c : string) (t : TestManager) : TestManager :=
  mkTM (in_test t) (question_index t) c (role t) (technical_questions t)
       (behavioral_questions t) (user_answers t).
Definition tm_set_role (r : string) (t : TestManager) : TestManager :=
  mkTM (in_test t) (question_index t) (company t) r (technical_questions t)
       (behavioral_questions t) (user_answers t).
Definition tm_set_questions (tech beh : pyval) (t : TestManager) : TestManager :=
  mkTM (in_test t) (question_index t) (company t) (role t) tech beh (user_answers t).
Definition tm_set_answers (a : list string) (t : TestManager) : TestManager :=
  mkTM (in_test t) (question_index t) (company t) (role t) (technical_questions t)
       (behavioral_questions t) a.

(** *** [format_markdown]: does its loop over a line ever stop?

    For a line that is neither a heading nor a bullet, the loop
    [while '**' in line or '`' in line] cuts the line after the first
    match of [\*\*(.*?)\*\*], else after the first match of [`(.*?)`];
    when the line still holds [**] or a backtick but neither pattern
    matches, no branch [continue]s and the loop repeats forever. *)

Fixpoint find_sub_from (pat s : string) (i : nat) : option nat :=
  match s with
  | EmptyString => if String.eqb pat "" then Some i else None
  | String _ r => if String.prefix pat s then Some i else find_sub_from pat r (S i)
  end.
(** Index of the first occurrence of [pat] in [s]. *)
Definition find_sub (s pat : string) : option nat := find_sub_from pat s 0.

Definition drop (n : nat) (s : string) : string := substring n (String.length s - n) s.

(** End of the first match of [open (.*?) close] with [open = close = pat]. *)
Definition pair_match_end (pat line : string) : option nat :=
  match find_sub line pat with
  | None => None
  | Some p =>
      let from := p + String.length pat in
      match find_sub (drop from line) pat with
      | None => None
      | Some q => Some (from + q + String.length pat)
      end
  end.

(** [pat in s] *)
Definition has_sub (s pat : string) : bool :=
  match find_sub s pat with Some _ => true | None => false end.

Definition bullet : string := "•".

Fixpoint md_loop_hangs (fuel : nat) (line : string) : bool :=
  match fuel with
  | O => false
  | S f =>
      if negb (has_sub line "**") && negb (has_sub line "`") then false
      else match pair_match_end "**" line with
           | Some e => md_loop_hangs f (drop e line)
           | None =>
               match pair_match_end "`" line with
               | Some e => md_loop_hangs f (drop e line)
               | None => true
               end
           end
  end.

(** [text.split('\n')] *)
Fixpoint split_lines_acc (s : string) (cur : string) : list string :=
  match s with
  | EmptyString => [cur]
  | String c r =>
      if (nat_of_ascii c =? 10)%nat then cur :: split_lines_acc r EmptyString
      else split_lines_acc r (cur ++ String c EmptyString)
  end.
Definition split_lines (s : string) : list string := split_lines_acc s EmptyString.

(** The loop body of [format_markdown] for one line. *)
Definition md_line_hangs (line : string) : bool :=
  if String.prefix "###" line then false
  else if String.prefix bullet (py_strip line) then false
  else md_loop_hangs (S (String.length line)) line.

(** [format_markdown(text)] never returns. *)
Definition format_markdown_hangs (text : string) : bool :=
  existsb md_line_hangs (split_lines text).

(** *** [format_markdown]: the inserts it makes *)

(** The tags [format_markdown] inserts text under. *)
Inductive md_tag : Type := TagMessage | TagBold | TagCode | TagHeading | TagBullet.

(** Span of the first match of [open (.*?) close] with [open = close = pat]:
    the first [pat], then the first [pat] after it. *)
Definition pair_match (pat line : string) : option (nat * nat) :=
  match find_sub line pat with
  | None => None
  | Some p =>
      let from := p + String.length pat in
      match find_sub (drop from line) pat with
      | None => None
      | Some q => Some (p, from + q + String.length pat)
      end
  end.

(** [match.group(1)] of that match: [line[start + len(pat) : end - len(pat)]]. *)
Definition pair_group (pat line : string) (start end_ : nat) : string :=
  substring (start + String.length pat) (end_ - String.length pat - (start + String.length pat)) line.

(** The [while] loop over a line: its inserts so far, or an endless loop. *)
Inductive md_run : Type :=
| MdDone (ins : list (string * md_tag)) (line leftover : string)
| MdHang
| MdOut.

Definition md_prepend (ins : list (string * md_tag)) (r : md_run) : md_run :=
  match r with
  | MdDone ins' line leftover => MdDone (ins ++ ins') line leftover
  | r => r
  end.

Fixpoint md_loop (fuel : nat) (line leftover : string) : md_run :=
  match fuel with
  | O => MdOut
  | S f =>
      if negb (has_sub line "**") && negb (has_sub line "`") then MdDone [] line leftover
      else match pair_match "**" line with
           | Some (start, end_) =>
               let leftover' := leftover ++ substring 0 start line in
               md_prepend [(leftover', TagMessage); (pair_group "**" line start end_, TagBold)]
                          (md_loop f (drop end_ line) "")
           | None =>
               match pair_match "`" line with
               | Some (start, end_) =>
                   let leftover' := leftover ++ substring 0 start line in
                   md_prepend [(leftover', TagMessage); (pair_group "`" line start end_, TagCode)]
                              (md_loop f (drop end_ line) "")
               | None => MdHang
               end
           end
  end.

(** Strip leading occurrences of any of [toks] (the UTF-8 bytes of the
    characters of a [str.strip(chars)] argument). *)
Fixpoint lstrip_toks (fuel : nat) (toks : list string) (s : string) : string :=
  match fuel with
  | O => s
  | S f =>
      match List.find (fun t => String.prefix t s) toks with
      | Some t => lstrip_toks f toks (drop (String.length t) s)
      | None => s
      end
  end.

(** [str.strip(chars)] *)
Definition strip_toks (toks : list string) (s : string) : string :=
  let n := String.length s in
  rev_string (lstrip_toks n (map rev_string toks) (rev_string (lstrip_toks n toks s))).

(** The body of [for line in lines]: the inserts for one line and the new
    [leftover], or [None] when the [while] loop never ends. *)
Definition format_line (line leftover : string) : option (list (string * md_tag) * string) :=
  if String.prefix "###" line then
    Some ([(py_strip (strip_toks ["#"] line) ++ nl, TagHeading)], leftover)
  else if String.prefix bullet (py_strip line) then
    Some ([("  ", TagMessage); (bullet ++ " ", TagBullet);
           (py_strip (strip_toks [bullet; " "] line) ++ nl, TagMessage)], leftover)
  else
    match md_loop (S (String.length line)) line leftover with
    | MdDone ins line' leftover' =>
        Some (app ins [(leftover' ++ line' ++ nl, TagMessage)], "")
    | _ => None
    end.

Fixpoint format_lines (lines : list string) (leftover : string)
  : option (list (string * md_tag)) :=
  match lines with
  | [] => Some []
  | line :: rest =>
      match format_line line leftover with
      | Some (ins, leftover') =>
          match format_lines rest leftover' with
          | Some ins' => Some (ins ++ ins')%list
          | None => None
          end
      | None => None
      end
  end.

(** [format_markdown(text)]: the [(text, tag)] pairs it inserts in order,
    or [None] when it never returns. *)
Definition format_markdown (text : string) : option (list (string * md_tag)) :=
  format_lines (split_lines text) "".

(** [add_message(sender, message, is_error)]: an error message is inserted
    as it is; any other message goes through [format_markdown]. *)
Definition add_message (snd_name message : string) (is_error : bool) : M unit :=
  fun g =>
    if negb is_error && format_markdown_hangs (message ++ nl ++ nl) then (g, Hang)
    else (set_display (chat_display g ++ [(snd_name, message, is_error)]) g, Ret tt).

(** Its [message + "\n\n"] raises [TypeError] when [message] is not a [str];
    [list.__add__] has its own message. *)
Definition add_message_val (snd_name : string) (message : pyval) (is_error : bool) : M unit :=
  match message with
  | PStr s => add_message snd_name s is_error
  | PList _ => raise (TypeError ("can only concatenate list (not " ++ dq ++ "str" ++ dq
                                 ++ ") to list"))
  | _ => raise (TypeError ("unsupported operand type(s) for +: " ++ sq ++ type_name message
                            ++ sq ++ " and 'str'"))
  end.

(** [enable_input()] *)
Definition enable_input : M unit := modifyM (set_processing false).

(** The HTTP exchange: [requests.post] either raises or yields a response
    with [status_code] and [text]. *)
Inductive http_outcome : Type :=
| Raised (e : exn)
| Response (status_code : Z) (body : string).

(** The JSON body [{"contents": [{"parts": [{"text": prompt}]}]}]. *)
Definition request_body (prompt : string) : pyval :=
  PDict [("contents", PList [PDict [("parts", PList [PDict [("text", PStr prompt)]])]])].

(** Content of [format_markdown]-free rendering of a conversation entry. *)
Definition render_turn (t : Turn) : string := sender t ++ ": " ++ text t.

(** [self.conversation_history[-5:]] *)
Definition last5 {A} (l : list A) : list A := skipn (List.length l - 5) l.

(** The prompt composed by [get_response]. *)
Definition chat_prompt (history : list Turn) (prompt : string) : string :=
  SYSTEM_PROMPT ++ nl ++ nl ++ String.concat nl (map render_turn (last5 history))
  ++ nl ++ "User: " ++ prompt.

(** The prompt composed by [evaluate_answers]. *)
Definition eval_prompt (t : TestManager) : string :=
  String.concat nl
  [ "";
    "Evaluate these interview answers for " ++ company t ++ " (" ++ role t ++ "):";
    "Technical Questions:";
    py_str (technical_questions t);
    "Behavioral Questions:";
    py_str (behavioral_questions t);
    "Answers:";
    py_repr (PList (map PStr (user_answers t)));
    "";
    "Give detailed feedback for each answer and a final (0-100%) 'placement probability'.";
    "" ].

(* ------------------------------------------------------------------ *)
(** ** The program, over its external collaborators *)

Section Program.

(** The remote generation endpoint: the outcome of posting a JSON body. *)
Variable post : pyval -> http_outcome.
(** [json.loads] (also behind [resp.json()]). *)
Variable json_loads : string -> res pyval.
(** [profanity.contains_profanity] *)
Variable contains_profanity : string -> bool.

(** [resp.json()['candidates'][0]['content']['parts'][0]['text']] *)
Definition candidate_text (body : string) : res pyval :=
  res_bind (json_loads body) (fun j =>
  res_bind (py_getitem j (KStr "candidates")) (fun c =>
  res_bind (py_getitem c (KInt 0)) (fun c0 =>
  res_bind (py_getitem c0 (KStr "content")) (fun ct =>
  res_bind (py_getitem ct (KStr "parts")) (fun ps =>
  res_bind (py_getitem ps (KInt 0)) (fun p0 =>
  py_getitem p0 (KStr "text"))))))).

(** The value [call_gemini_api] returns for one HTTP outcome: its whole
    body sits in [try ... except Exception as e]. *)
Definition gemini_result (o : http_outcome) : pyval :=
  match o with
  | Raised e => PStr ("Error: " ++ exn_str e)
  | Response code body =>
      if Z.eqb code 200 then
        match candidate_text body with
        | Ok v => v
        | Exc e => PStr ("Error: " ++ exn_str e)
        end
      else PStr ("Error " ++ Z_str code ++ ": " ++ body)
  end.

(** What the remote answers to [prompt]. *)
Definition remote_answer (prompt : string) : pyval :=
  gemini_result (post (request_body prompt)).

(** [call_gemini_api(prompt)]: one POST, never raises. *)
Definition call_gemini_api (prompt : string) : M pyval :=
  modifyM (log_request (request_body prompt)) ;;
  retM (remote_answer prompt).

(** [response.strip().lower() == "valid"] *)
Definition company_verdict (response : pyval) : res bool :=
  match response with
  | PStr s => Ok (String.eqb (py_lower (py_strip s)) "valid")
  | _ => Exc (AttributeError (sq ++ type_name response ++ sq
                              ++ " object has no attribute 'strip'"))
  end.

(** [gemini_check_company(company_name)] *)
Definition gemini_check_company (company_name : string) : M bool :=
  response <- call_gemini_api (check_prompt company_name) ;;
  liftR (company_verdict response).

(** The [json_str] of [gemini_generate_questions]: from the first '{' to
    the last '}', stripped, or [""]. *)
Definition json_capture (raw : string) : string :=
  let start_idx := py_find raw "{"%char in
  let end_idx := py_rfind raw "}"%char in
  if negb (Z.eqb start_idx (-1)) && negb (Z.eqb end_idx (-1)) && (start_idx <? end_idx)%Z
  then py_strip (substring (Z.to_nat start_idx) (Z.to_nat (end_idx + 1 - start_idx)) raw)
  else "".

(** The [try] block of [gemini_generate_questions]. *)
Definition try_questions (json_str : string) : res (pyval * pyval) :=
  res_bind (json_loads json_str) (fun data =>
  res_bind (py_getitem data (KStr "technical_questions")) (fun tech =>
  res_bind (py_getitem data (KStr "behavioral_questions")) (fun beh =>
  res_bind (py_len tech) (fun lt =>
  if negb (Nat.eqb lt 5)
  then Exc (ValueError "Did not receive exactly 5 technical and 5 behavioral questions.")
  else res_bind (py_len beh) (fun lb =>
       if negb (Nat.eqb lb 5)
       then Exc (ValueError "Did not receive exactly 5 technical and 5 behavioral questions.")
       else Ok (tech, beh)))))).

(** Response handling of [gemini_generate_questions] for a [str] response. *)
Definition parse_questions (raw : string) : pyval * pyval :=
  match try_questions (json_capture raw) with
  | Ok tb => tb
  | Exc _ => fallback_questions
  end.

(** [gemini_generate_questions(role)]; [raw_response.find] raises
    [AttributeError] when the response is not a [str]. *)
Definition gemini_generate_questions (role : string) : M (pyval * pyval) :=
  raw_response <- call_gemini_api (questions_prompt role) ;;
  match raw_response with
  | PStr s => retM (parse_questions s)
  | _ => raise (AttributeError (sq ++ type_name raw_response ++ sq
                                ++ " object has no attribute 'find'"))
  end.

(** *** [TestManager] methods *)

Definition set_company (name : string) : M bool := gemini_check_company name.

Definition set_role (r : string) : M unit := modifyTM (tm_set_role r).

Definition generate_test_questions : M unit :=
  t <- getTM ;;
  qs <- gemini_generate_questions (role t) ;;
  modifyTM (tm_set_questions (fst qs) (snd qs)).

(** [next_question()] *)
Definition next_question : M pyval :=
  t <- getTM ;;
  total_tech <- liftR (py_len (technical_questions t)) ;;
  total_beh <- liftR (py_len (behavioral_questions t)) ;;
  let i := question_index t in
  q <- (if (i <? total_tech)%nat
        then liftR (py_getitem (technical_questions t) (KInt (Z.of_nat i)))
        else if (i <? total_tech + total_beh)%nat
        then liftR (py_getitem (behavioral_questions t) (KInt (Z.of_nat (i - total_tech))))
        else retM PNone) ;;
  (if py_truthy q then modifyTM (tm_set_index (S i)) else retM tt) ;;
  retM q.

Definition store_answer (answer : string) : M unit :=
  modifyTM (fun t => tm_set_answers (user_answers t ++ [answer]) t).

Definition all_answers_collected : M bool :=
  t <- getTM ;;
  lt <- liftR (py_len (technical_questions t)) ;;
  lb <- liftR (py_len (behavioral_questions t)) ;;
  retM (lt + lb <=? List.length (user_answers t))%nat.

Definition evaluate_answers : M pyval :=
  t <- getTM ;;
  call_gemini_api (eval_prompt t).

(** *** [EnhancedChatbotGUI] methods *)

Definition start_test : M unit :=
  modifyTM (tm_set_in_test true) ;;
  add_message "JoSi" start_msg false.

Definition exit_test : M unit :=
  modifyTM (fun _ => new_TestManager) ;;
  add_message "JoSi" exited_msg false.

Definition ask_next_question : M unit :=
  question <- next_question ;;
  match question with
  | PNone =>
      result <- evaluate_answers ;;
      add_message_val "JoSi" result false ;;
      exit_test
  | _ =>
      t <- getTM ;;
      add_message "JoSi" ("**Q" ++ nat_str (question_index t) ++ ":** " ++ py_str question) false
  end.

Definition handle_test_flow (user_input : string) : M unit :=
  t <- getTM ;;
  if String.eqb (company t) "" then
    valid <- set_company user_input ;;
    if negb valid then add_message "JoSi" not_recognized_msg false
    else
      modifyTM (tm_set_company user_input) ;;
      add_message "JoSi" ("Great! Now enter the role you're applying for at " ++ user_input ++ ":") false
  else if String.eqb (role t) "" then
    set_role user_input ;;
    generate_test_questions ;;
    add_message "JoSi" first_question_msg false ;;
    ask_next_question
  else
    store_answer user_input ;;
    done <- all_answers_collected ;;
    if done then
      result <- evaluate_answers ;;
      add_message_val "JoSi" result false ;;
      exit_test
    else ask_next_question.

(** [get_response(prompt)] *)
Definition get_response (prompt : string) : M pyval :=
  if contains_profanity prompt then retM (PStr get_response_refusal)
  else
    g <- getM ;;
    call_gemini_api (chat_prompt (conversation_history g) prompt).

(** [resp.startswith("Error")]; a non-[str] has no [startswith]. *)
Definition startswith_error (v : pyval) : res bool :=
  match v with
  | PStr s => Ok (py_startswith s "Error")
  | _ => Exc (AttributeError (sq ++ type_name v ++ sq ++ " object has no attribute 'startswith'"))
  end.

Definition append_turn (t : Turn) : M unit :=
  modifyM (fun g => set_history (conversation_history g ++ [t]) g).

Definition process_test_message (user_text : string) : M unit :=
  catchM (handle_test_flow user_text)
         (fun e => add_message "JoSi" ("Error in test flow: " ++ exn_str e) true) ;;
  enable_input.

Definition process_normal_message (user_text : string) : M unit :=
  catchM (resp <- get_response user_text ;;
          is_error <- liftR (startswith_error resp) ;;
          append_turn (mkTurn "JoSi" (py_str resp)) ;;
          add_message "JoSi" (py_str resp) is_error)
         (fun e => add_message "JoSi" ("Error: " ++ exn_str e) true) ;;
  enable_input.

(** [send_message()], with [raw] the content of the input field; the worker
    thread it starts runs to completion (input is disabled meanwhile). *)
Definition send_message (raw : string) : M unit :=
  g <- getM ;;
  if is_processing g then retM tt
  else
    let user_text := py_strip raw in
    if String.eqb user_text "" then retM tt
    else
      add_message "You" user_text false ;;
      if contains_profanity user_text then
        add_message "JoSi" profanity_refusal true ;;
        enable_input
      else
        append_turn (mkTurn "user" user_text) ;;
        modifyM (set_processing true) ;;
        t <- getTM ;;
        if in_test t then process_test_message user_text
        else process_normal_message user_text.

(** The initial window: empty history, a fresh [TestManager]. *)
Definition init_gui : Gui := mkGui [] new_TestManager [] false [].

(** User actions: send a message, press "Start Test", press "Exit Test". *)
Inductive gui_step : Gui -> Gui -> Prop :=
| step_send (raw : string) (g : Gui) : gui_step g (fst (send_message raw g))
| step_start (g : Gui) : gui_step g (fst (start_test g))
| step_exit (g : Gui) : gui_step g (fst (exit_test g)).


End Program.

(* ------------------------------------------------------------------ *)
(** ** A concrete JSON decoder for concrete runs

    [json_loads_lite] agrees with [json.loads] on JSON texts made of
    objects, arrays, [null], [true], [false], integers and strings (with
    no [\u] escapes); it reports a decode error on anything else.  It is
    used only to run the program on concrete inputs inside that fragment. *)

Definition is_json_ws (c : ascii) : bool :=
  let n := nat_of_ascii c in ((n =? 32) || (n =? 9) || (n =? 10) || (n =? 13))%nat.

Fixpoint skip_ws (s : list ascii) : list ascii :=
  match s with
  | c :: r => if is_json_ws c then skip_ws r else s
  | [] => []
  end.

Definition is_digit (c : ascii) : bool :=
  let n := nat_of_ascii c in ((48 <=? n) && (n <=? 57))%nat.

Fixpoint lex_digits (s : list ascii) (acc : Z) (seen : bool) : option (Z * list ascii) :=
  match s with
  | c :: r => if is_digit c then lex_digits r (acc * 10 + Z.of_nat (nat_of_ascii c - 48)) true
              else if seen then Some (acc, s) else None
  | [] => if seen then Some (acc, []) else None
  end.

(** A string body up to its closing quote, with the one-character escapes
    of JSON; [\u] escapes are outside the fragment. *)
Definition unescape (c : ascii) : option ascii :=
  let n := nat_of_ascii c in
  if ((n =? 34) || (n =? 92) || (n =? 47))%nat then Some c
  else if Ascii.eqb c "n"%char then Some (ascii_of_nat 10)
  else if Ascii.eqb c "t"%char then Some (ascii_of_nat 9)
  else if Ascii.eqb c "r"%char then Some (ascii_of_nat 13)
  else if Ascii.eqb c "b"%char then Some (ascii_of_nat 8)
  else if Ascii.eqb c "f"%char then Some (ascii_of_nat 12)
  else None.

Fixpoint lex_string (s : list ascii) : option (string * list ascii) :=
  match s with
  | [] => None
  | c :: r =>
      if (nat_of_ascii c =? 34)%nat then Some (EmptyString, r)
      else if (nat_of_ascii c =? 92)%nat then
        match r with
        | e :: r' =>
            match unescape e, lex_string r' with
            | Some c', Some (t, r'') => Some (String c' t, r'')
            | _, _ => None
            end
        | [] => None
        end
      else match lex_string r with
           | Some (t, r') => Some (String c t, r')
           | None => None
           end
  end.

(** [d[k] = v] on a dict: replace in place, or append a new key. *)
Fixpoint dict_set (d : list (string * pyval)) (k : string) (v : pyval) : list (string * pyval) :=
  match d with
  | [] => [(k, v)]
  | (k', v') :: d' => if String.eqb k k' then (k, v) :: d' else (k', v') :: dict_set d' k v
  end.

Fixpoint parse_value (fuel : nat) (s : list ascii) {struct fuel} : option (pyval * list ascii) :=
  match fuel with
  | O => None
  | S f =>
      match skip_ws s with
      | [] => None
      | c :: r =>
          if Ascii.eqb c "n"%char then
            match r with "u"%char :: "l"%char :: "l"%char :: r' => Some (PNone, r') | _ => None end
          else if Ascii.eqb c "t"%char then
            match r with "r"%char :: "u"%char :: "e"%char :: r' => Some (PBool true, r') | _ => None end
          else if Ascii.eqb c "f"%char then
            match r with "a"%char :: "l"%char :: "s"%char :: "e"%char :: r' => Some (PBool false, r')
                    | _ => None end
          else if (nat_of_ascii c =? 34)%nat then
            match lex_string r with Some (t, r') => Some (PStr t, r') | None => None end
          else if Ascii.eqb c "-"%char then
            match lex_digits r 0 false with Some (z, r') => Some (PInt (- z), r') | None => None end
          else if is_digit c then
            match lex_digits (c :: r) 0 false with Some (z, r') => Some (PInt z, r') | None => None end
          else if Ascii.eqb c "["%char then
            match skip_ws r with
            | "]"%char :: r' => Some (PList [], r')
            | _ => parse_elems f r []
            end
          else if Ascii.eqb c "{"%char then
            match skip_ws r with
            | "}"%char :: r' => Some (PDict [], r')
            | _ => parse_members f r []
            end
          else None
      end
  end
with parse_elems (fuel : nat) (s : list ascii) (acc : list pyval) {struct fuel}
  : option (pyval * list ascii) :=
  match fuel with
  | O => None
  | S f =>
      match parse_value f s with
      | None => None
      | Some (v, r) =>
          match skip_ws r with
          | ","%char :: r' => parse_elems f r' (acc ++ [v])
          | "]"%char :: r' => Some (PList (acc ++ [v]), r')
          | _ => None
          end
      end
  end
with parse_members (fuel : nat) (s : list ascii) (acc : list (string * pyval)) {struct fuel}
  : option (pyval * list ascii) :=
  match fuel with
  | O => None
  | S f =>
      match skip_ws s with
      | c :: r =>
          if (nat_of_ascii c =? 34)%nat then
            match lex_string r with
            | None => None
            | Some (k, r1) =>
                match skip_ws r1 with
                | ":"%char :: r2 =>
                    match parse_value f r2 with
                    | None => None
                    | Some (v, r3) =>
                        match skip_ws r3 with
                        | ","%char :: r4 => parse_members f r4 (dict_set acc k v)
                        | "}"%char :: r4 => Some (PDict (dict_set acc k v), r4)
                        | _ => None
                        end
                    end
                | _ => None
                end
            end
          else None
      | [] => None
      end
  end.

Definition json_loads_lite (s : string) : res pyval :=
  let cs := list_ascii_of_string s in
  match parse_value (S (2 * List.length cs)) cs with
  | Some (v, rest) =>
      match skip_ws rest with
      | [] => Ok v
      | _ => Exc (JSONDecodeError "Extra data")
      end
  | None => Exc (JSONDecodeError "Expecting value")
  end.

Definition q (s : string) : string := dq ++ s ++ dq.

Example json_lite_1 :
  json_loads_lite ("{" ++ q "a" ++ ": [1, -2, null, true], " ++ q "b" ++ ": {" ++ q "c" ++ ": " ++ q "x y" ++ "}}")
  = Ok (PDict [("a", PList [PInt 1; PInt (-2); PNone; PBool true]); ("b", PDict [("c", PStr "x y")])]).
Proof. reflexivity. Qed.

Example json_lite_2 : json_loads_lite "" = Exc (JSONDecodeError "Expecting value").
Proof. reflexivity. Qed.

(** [json.dumps] of an ASCII string. *)
Fixpoint json_escape (s : string) : string :=
  match s with
  | EmptyString => EmptyString
  | String c r =>
      let n := nat_of_ascii c in
      (if ((n =? 34) || (n =? 92))%nat then String "\"%char (String c EmptyString)
       else if (n =? 10)%nat then "\n"
       else String c EmptyString) ++ json_escape r
  end.
Definition json_quote (s : string) : string := dq ++ json_escape s ++ dq.

(** A generation response body whose text part is the JSON text [text_json]. *)
Definition gemini_body (text_json : string) : string :=
  "{" ++ q "candidates" ++ ": [{" ++ q "content" ++ ": {" ++ q "parts" ++ ": [{"
  ++ q "text" ++ ": " ++ text_json ++ "}]}}]}".

Example gemini_body_text :
  candidate_text json_loads_lite (gemini_body (json_quote ("say " ++ q "hi"))) = Ok (PStr ("say " ++ q "hi")).
Proof. vm_compute. reflexivity. Qed.

(* ================================================================== *)
(** * Properties *)

(* ------------------------------------------------------------------ *)
(** ** Remote Model Client: [call_gemini_api] *)

(** C4 (amended): [call_gemini_api prompt] sends one request whose body
    carries [prompt], and always returns (never raises): the first text
    part of the first candidate when the status is exactly 200 and that
    part exists; ["Error: " + str(e)] when the part cannot be extracted or
    the transport raises; and ["Error <status>: " + body] for every status
    other than 200, other 2xx statuses included. *)
Theorem call_gemini_api_contract (post : pyval -> http_outcome)
    (json_loads : string -> res pyval) (prompt : string) (g : Gui) :
  call_gemini_api post json_loads prompt g
    = (log_request (request_body prompt) g, Ret (remote_answer post json_loads prompt)) /\
  remote_answer post json_loads prompt =
    match post (request_body prompt) with
    | Raised e => PStr ("Error: " ++ exn_str e)
    | Response code body =>
        if Z.eqb code 200 then
          match candidate_text json_loads body with
          | Ok v => v
          | Exc e => PStr ("Error: " ++ exn_str e)
          end
        else PStr ("Error " ++ Z_str code ++ ": " ++ body)
    end.
Proof.
  split; [reflexivity|].
  unfold remote_answer, gemini_result.
  destruct (post (request_body prompt)); reflexivity.
Qed.

(** C4, counterexample: a 201 (an HTTP success) whose body holds a
    candidate text yields ["Error 201: " + body], not the text. *)
Lemma call_gemini_api_201_is_error :
  candidate_text json_loads_lite (gemini_body (json_quote "hello")) = Ok (PStr "hello") /\
  remote_answer (fun _ => Response 201 (gemini_body (json_quote "hello"))) json_loads_lite "hi"
    = PStr ("Error 201: " ++ gemini_body (json_quote "hello")).
Proof. split; vm_compute; reflexivity. Qed.

(** Every value [call_gemini_api] builds itself (all but the text part of
    a 200 response) is a [str] starting with "Error". *)
Lemma remote_answer_error_prefix post json_loads prompt :
  (exists v, match post (request_body prompt) with
             | Response 200 body => candidate_text json_loads body = Ok v
             | _ => False
             end /\ remote_answer post json_loads prompt = v) \/
  (exists s, remote_answer post json_loads prompt = PStr s /\ py_startswith s "Error" = true).
Proof.
  unfold remote_answer, gemini_result.
  destruct (post (request_body prompt)) as [e|code body].
  - right. eexists. split; reflexivity.
  - destruct (Z.eqb_spec code 200) as [->|Hne].
    + destruct (candidate_text json_loads body) as [v|e] eqn:Hc.
      * left. exists v. split; reflexivity.
      * right. eexists. split; reflexivity.
    + right. eexists. split; reflexivity.
Qed.

(* ------------------------------------------------------------------ *)
(** ** Company Validator: [gemini_check_company] *)

(** [str.strip] keeps a leading character that is not white space. *)
Lemma lstrip_snoc (c : ascii) (l : list ascii) :
  is_space c = false ->
  exists m, lstrip (string_of_list_ascii (l ++ [c])) = string_of_list_ascii (m ++ [c]).
Proof.
  intros Hc. induction l as [|x l IH]; simpl.
  - exists []. simpl. rewrite Hc. reflexivity.
  - destruct (is_space x).
    + exact IH.
    + exists (x :: l). reflexivity.
Qed.

Lemma py_strip_keeps_head (c : ascii) (r : string) :
  is_space c = false -> exists t, py_strip (String c r) = String c t.
Proof.
  intros Hc. unfold py_strip. simpl. rewrite Hc.
  unfold rev_string at 2. simpl.
  destruct (lstrip_snoc c (rev (list_ascii_of_string r)) Hc) as [m Hm].
  rewrite Hm. unfold rev_string.
  rewrite list_ascii_of_string_of_list_ascii, rev_app_distr. simpl.
  eexists. reflexivity.
Qed.

(** C5: [gemini_check_company name] makes one remote call with the check
    prompt; for every [str] reply of the Remote Model Client it returns
    [True] exactly when the stripped, lower-cased reply is "valid", and
    [False] for every other reply, every "Error..." sentinel included. *)
Theorem gemini_check_company_verdict post json_loads (name s : string) (g : Gui) :
  remote_answer post json_loads (check_prompt name) = PStr s ->
  fst (gemini_check_company post json_loads name g)
    = log_request (request_body (check_prompt name)) g /\
  (snd (gemini_check_company post json_loads name g) = Ret true
     <-> py_lower (py_strip s) = "valid") /\
  (snd (gemini_check_company post json_loads name g) = Ret true \/
   snd (gemini_check_company post json_loads name g) = Ret false) /\
  (py_startswith s "Error" = true ->
   snd (gemini_check_company post json_loads name g) = Ret false).
Proof.
  intros Hs.
  unfold gemini_check_company, call_gemini_api, bindM, modifyM, retM, liftR, company_verdict.
  simpl. rewrite Hs. split; [reflexivity|].
  destruct (String.eqb_spec (py_lower (py_strip s)) "valid") as [Hv|Hv]; simpl.
  - split; [tauto|]. split; [now left|].
    intros He. exfalso. destruct s as [|c s]; [discriminate|].
    unfold py_startswith in He. cbn [String.prefix] in He.
    destruct (ascii_dec "E"%char c) as [<-|]; [|discriminate].
    destruct (py_strip_keeps_head "E"%char s eq_refl) as [t Ht].
    rewrite Ht in Hv. discriminate.
  - split; [split; [intro H; inversion H | intro H; contradiction]|].
    split; [now right|].
    intros _; reflexivity.
Qed.

(** Outside the [str] contract of the Remote Model Client: a 200 reply
    whose text part is the number 5 reaches [.strip()], which raises
    [AttributeError]. *)
Lemma gemini_check_company_non_str_raises :
  snd (gemini_check_company (fun _ => Response 200 (gemini_body "5")) json_loads_lite
         "Acme" init_gui)
    = Throw (AttributeError "'int' object has no attribute 'strip'").
Proof. vm_compute. reflexivity. Qed.

(* ------------------------------------------------------------------ *)
(** ** Question Generator: [gemini_generate_questions] *)

Lemma try_questions_len json_loads (json_str : string) (tech beh : pyval) :
  try_questions json_loads json_str = Ok (tech, beh) ->
  py_len tech = Ok 5 /\ py_len beh = Ok 5.
Proof.
  unfold try_questions, res_bind.
  destruct (json_loads json_str) as [data|]; [|discriminate].
  destruct (py_getitem data (KStr "technical_questions")) as [t|]; [|discriminate].
  destruct (py_getitem data (KStr "behavioral_questions")) as [b|]; [|discriminate].
  destruct (py_len t) as [lt|] eqn:Ht; [|discriminate].
  destruct (Nat.eqb_spec lt 5) as [->|]; [|discriminate]. simpl.
  destruct (py_len b) as [lb|] eqn:Hb; [|discriminate].
  destruct (Nat.eqb_spec lb 5) as [->|]; [|discriminate]. simpl.
  intros H. inversion H; subst. auto.
Qed.

Lemma fallback_questions_len :
  py_len (fst fallback_questions) = Ok 5 /\ py_len (snd fallback_questions) = Ok 5.
Proof. split; reflexivity. Qed.

Lemma parse_questions_len json_loads (raw : string) :
  py_len (fst (parse_questions json_loads raw)) = Ok 5 /\
  py_len (snd (parse_questions json_loads raw)) = Ok 5.
Proof.
  unfold parse_questions.
  destruct (try_questions json_loads (json_capture raw)) as [[t b]|e] eqn:H.
  - exact (try_questions_len _ _ _ _ H).
  - exact fallback_questions_len.
Qed.

(** When the parsed [json_str] gives both keys with [len] 5, those two
    values are used; in every other case the fallback lists are. *)
Lemma parse_questions_cases json_loads (raw : string) :
  parse_questions json_loads raw =
    match json_loads (json_capture raw) with
    | Ok d =>
        match py_getitem d (KStr "technical_questions"),
              py_getitem d (KStr "behavioral_questions") with
        | Ok t, Ok b =>
            match py_len t, py_len b with
            | Ok 5, Ok 5 => (t, b)
            | _, _ => fallback_questions
            end
        | _, _ => fallback_questions
        end
    | Exc _ => fallback_questions
    end.
Proof.
  unfold parse_questions, try_questions, res_bind.
  destruct (json_loads (json_capture raw)) as [d|]; [|reflexivity].
  destruct (py_getitem d (KStr "technical_questions")) as [t|]; [|reflexivity].
  destruct (py_getitem d (KStr "behavioral_questions")) as [b|]; [|reflexivity].
  destruct (py_len t) as [lt|]; [|reflexivity].
  destruct (Nat.eqb_spec lt 5) as [->|Hlt].
  - simpl. destruct (py_len b) as [lb|]; [|reflexivity].
    destruct (Nat.eqb_spec lb 5) as [->|Hlb]; [reflexivity|].
    do 5 (destruct lb as [|lb]; [reflexivity|]). destruct lb; [lia|reflexivity].
  - do 5 (destruct lt as [|lt]; [simpl; destruct (py_len b); reflexivity|]).
    destruct lt; [lia|]. simpl. destruct (py_len b); reflexivity.
Qed.

(** C3 (amended): [gemini_generate_questions role] makes one remote call;
    when the reply is a [str], it returns, and the pair it returns has
    [len] exactly 5 on both sides: the values found under
    "technical_questions" and "behavioral_questions" in the JSON parsed
    from the first '{' to the last '}', when that parse succeeds and both
    values have [len] 5 (their elements are not checked to be strings),
    and the fixed fallback of 5 + 5 question strings otherwise.  A reply
    that is not a [str] makes [raw_response.find] raise. *)
Theorem gemini_generate_questions_shape post json_loads (role : string) (g : Gui) :
  fst (gemini_generate_questions post json_loads role g)
    = log_request (request_body (questions_prompt role)) g /\
  match remote_answer post json_loads (questions_prompt role) with
  | PStr s =>
      snd (gemini_generate_questions post json_loads role g)
        = Ret (parse_questions json_loads s) /\
      py_len (fst (parse_questions json_loads s)) = Ok 5 /\
      py_len (snd (parse_questions json_loads s)) = Ok 5 /\
      parse_questions json_loads s =
        match json_loads (json_capture s) with
        | Ok d =>
            match py_getitem d (KStr "technical_questions"),
                  py_getitem d (KStr "behavioral_questions") with
            | Ok t, Ok b =>
                match py_len t, py_len b with
                | Ok 5, Ok 5 => (t, b)
                | _, _ => fallback_questions
                end
            | _, _ => fallback_questions
            end
        | Exc _ => fallback_questions
        end
  | v => snd (gemini_generate_questions post json_loads role g)
           = Throw (AttributeError (sq ++ type_name v ++ sq ++ " object has no attribute 'find'"))
  end.
Proof.
  unfold gemini_generate_questions, call_gemini_api, bindM, modifyM, retM, raise.
  simpl.
  destruct (remote_answer post json_loads (questions_prompt role)) as [| | |s| |];
    simpl; split; try reflexivity.
  split; [reflexivity|].
  destruct (parse_questions_len json_loads s) as [H1 H2].
  split; [exact H1|]. split; [exact H2|].
  apply parse_questions_cases.
Qed.

(** The reply of C3's counterexample: prose around a JSON object whose two
    arrays hold five numbers each. *)
Definition numbers_reply : string :=
  "Sure! {" ++ q "technical_questions" ++ ": [1, 2, 3, 4, 5], "
  ++ q "behavioral_questions" ++ ": [1, 2, 3, 4, 5]} Good luck.".

(** C3, counterexample: that reply passes the length checks, and
    [gemini_generate_questions] returns numbers, not question strings. *)
Lemma gemini_generate_questions_numbers :
  snd (gemini_generate_questions
         (fun _ => Response 200 (gemini_body (json_quote numbers_reply)))
         json_loads_lite "Developer" init_gui)
    = Ret (PList [PInt 1; PInt 2; PInt 3; PInt 4; PInt 5],
           PList [PInt 1; PInt 2; PInt 3; PInt 4; PInt 5]).
Proof. vm_compute. reflexivity. Qed.

(* ------------------------------------------------------------------ *)
(** ** Test Sequencer: [TestManager.next_question] *)


(** A [TestManager] whose first technical question is the empty string
    (a reply of the remote may hold one: only lengths are checked). *)
Definition tm_empty_first : TestManager :=
  mkTM true 0 "Acme" "Developer"
       (PList (map PStr [""; "b"; "c"; "d"; "e"])) (fst fallback_questions) [].

(** C10, failing input: on [tm_empty_first], [next_question] returns the
    question at index 0, [""], and leaves [question_index] at 0 instead of
    moving it to 1; nothing else changes. *)
Lemma next_question_empty_question_no_advance :
  next_question (mkGui [] tm_empty_first [] false [])
    = (mkGui [] tm_empty_first [] false [], Ret (PStr "")).
Proof. reflexivity. Qed.

(* ------------------------------------------------------------------ *)
(** ** Concrete sessions *)

(** The prompt inside a request body built by [request_body]. *)
Definition prompt_of (req : pyval) : string :=
  match req with
  | PDict [("contents", PList [PDict [("parts", PList [PDict [("text", PStr p)]])]])] => p
  | _ => ""
  end.

(** A remote service that accepts every company, answers the question
    prompt with [questions_reply] and every other prompt with a body whose
    text part is the JSON text [other_json]. *)
Definition demo_post (questions_reply other_json : string) (req : pyval) : http_outcome :=
  let p := prompt_of req in
  if String.prefix (nl ++ "Check if") p then Response 200 (gemini_body (json_quote "VALID"))
  else if String.prefix (nl ++ "Generate exactly") p
  then Response 200 (gemini_body (json_quote questions_reply))
  else Response 200 (gemini_body other_json).

(** The user sends the messages [raws] one after the other. *)
Definition run_sends post json_loads contains_profanity (raws : list string) (g : Gui) : Gui :=
  fold_left (fun g' raw => fst (send_message post json_loads contains_profanity raw g')) raws g.

(** A questions reply whose first technical question is empty. *)
Definition empty_first_reply : string :=
  "{" ++ q "technical_questions" ++ ": [" ++ q "" ++ ", " ++ q "b" ++ ", " ++ q "c" ++ ", "
  ++ q "d" ++ ", " ++ q "e" ++ "], " ++ q "behavioral_questions" ++ ": [" ++ q "f" ++ ", "
  ++ q "g" ++ ", " ++ q "h" ++ ", " ++ q "i" ++ ", " ++ q "j" ++ "]}".

Definition no_profanity (_ : string) : bool := false.

(** C1, failing input: with a first technical question [""], the sequence
    start, "Acme", "Developer", "my answer" shows question "**Q0:** " after
    the role and shows it again after the first answer: the second
    question "b" is never asked, because [next_question] advances only on
    a truthy question. *)
Lemma sequencer_repeats_empty_question :
  chat_display
    (run_sends (demo_post empty_first_reply (json_quote "Score: 70%")) json_loads_lite
               no_profanity ["Acme"; "Developer"; "my answer"] (fst (start_test init_gui)))
  = [ ("JoSi", start_msg, false);
      ("You", "Acme", false);
      ("JoSi", "Great! Now enter the role you're applying for at Acme:", false);
      ("You", "Developer", false);
      ("JoSi", first_question_msg, false);
      ("JoSi", "**Q0:** ", false);
      ("You", "my answer", false);
      ("JoSi", "**Q0:** ", false) ].
Proof. vm_compute. reflexivity. Qed.

(* ------------------------------------------------------------------ *)
(** ** Frame lemmas: what leaves the conversation history alone *)

Definition keeps_history {A} (m : M A) : Prop :=
  forall g, conversation_history (fst (m g)) = conversation_history g.

Create HintDb keeps.

Lemma keeps_ret {A} (a : A) : keeps_history (retM a).
Proof. intro g. reflexivity. Qed.

Lemma keeps_get : keeps_history getM.
Proof. intro g. reflexivity. Qed.

Lemma keeps_raise {A} (e : exn) : keeps_history (A := A) (raise e).
Proof. intro g. reflexivity. Qed.

Lemma keeps_liftR {A} (r : res A) : keeps_history (liftR r).
Proof. intro g. destruct r; reflexivity. Qed.

Lemma keeps_modifyTM f : keeps_history (modifyTM f).
Proof. intro g. reflexivity. Qed.

Lemma keeps_processing b : keeps_history (modifyM (set_processing b)).
Proof. intro g. reflexivity. Qed.

Lemma keeps_log r : keeps_history (modifyM (log_request r)).
Proof. intro g. reflexivity. Qed.

Lemma keeps_add_message s m e : keeps_history (add_message s m e).
Proof.
  intro g. unfold add_message.
  destruct (negb e && format_markdown_hangs (m ++ nl ++ nl)); reflexivity.
Qed.

Lemma keeps_add_message_val s v e : keeps_history (add_message_val s v e).
Proof. destruct v; try apply keeps_add_message; apply keeps_raise. Qed.

Lemma keeps_bind {A B} (m : M A) (k : A -> M B) :
  keeps_history m -> (forall a, keeps_history (k a)) -> keeps_history (bindM m k).
Proof.
  intros Hm Hk g. unfold bindM.
  specialize (Hm g). destruct (m g) as [g' [a|e|]]; simpl in *;
    [rewrite Hk|..]; exact Hm.
Qed.

Lemma keeps_catch {A} (m : M A) (h : exn -> M A) :
  keeps_history m -> (forall e, keeps_history (h e)) -> keeps_history (catchM m h).
Proof.
  intros Hm Hh g. unfold catchM.
  specialize (Hm g). destruct (m g) as [g' [a|e|]]; simpl in *;
    [|rewrite Hh|]; exact Hm.
Qed.

#[local] Hint Resolve keeps_ret keeps_get keeps_raise keeps_liftR keeps_modifyTM
  keeps_processing keeps_log keeps_add_message keeps_add_message_val : keeps.

(** Split a program into the pieces the hint database knows. *)
Ltac keeps_solve :=
  repeat match goal with
         | |- keeps_history (bindM _ _) => apply keeps_bind; [|intro]
         | |- keeps_history (catchM _ _) => apply keeps_catch; [|intro]
         | |- keeps_history (if ?b then _ else _) => destruct b
         | |- keeps_history (match ?x with _ => _ end) => destruct x
         end;
  eauto with keeps.

Section Frame.
Variable post : pyval -> http_outcome.
Variable json_loads : string -> res pyval.

Lemma keeps_call prompt : keeps_history (call_gemini_api post json_loads prompt).
Proof. unfold call_gemini_api. keeps_solve. Qed.
#[local] Hint Resolve keeps_call : keeps.

Lemma keeps_exit_test : keeps_history exit_test.
Proof. unfold exit_test. keeps_solve. Qed.
#[local] Hint Resolve keeps_exit_test : keeps.

Lemma keeps_evaluate : keeps_history (evaluate_answers post json_loads).
Proof. unfold evaluate_answers, getTM. keeps_solve. Qed.
#[local] Hint Resolve keeps_evaluate : keeps.

Lemma keeps_next_question : keeps_history next_question.
Proof. unfold next_question, getTM. keeps_solve. Qed.
#[local] Hint Resolve keeps_next_question : keeps.

Lemma keeps_ask_next_question : keeps_history (ask_next_question post json_loads).
Proof. unfold ask_next_question, getTM. keeps_solve. Qed.
#[local] Hint Resolve keeps_ask_next_question : keeps.

Lemma keeps_handle_test_flow u : keeps_history (handle_test_flow post json_loads u).
Proof.
  unfold handle_test_flow, set_company, gemini_check_company, set_role,
    generate_test_questions, gemini_generate_questions, store_answer,
    all_answers_collected, getTM.
  keeps_solve.
Qed.

Lemma keeps_process_test_message u : keeps_history (process_test_message post json_loads u).
Proof.
  unfold process_test_message, enable_input.
  apply keeps_bind; [apply keeps_catch; [apply keeps_handle_test_flow|]|]; keeps_solve.
Qed.

End Frame.

(* ------------------------------------------------------------------ *)
(** ** Conversation Session and dispatch: [send_message] *)

(** The state in which [send_message] starts the worker for [u]: the
    input echoed, the user turn appended, input disabled. *)
Definition dispatched (g : Gui) (u : string) : Gui :=
  mkGui (conversation_history g ++ [mkTurn "user" u]) (test_manager g)
        (chat_display g ++ [("You", u, false)]) true (requests_sent g).

Lemma send_message_dispatch post json_loads contains_profanity (raw : string) (g : Gui) :
  is_processing g = false ->
  py_strip raw <> "" ->
  format_markdown_hangs (py_strip raw ++ nl ++ nl) = false ->
  contains_profanity (py_strip raw) = false ->
  send_message post json_loads contains_profanity raw g =
    if in_test (test_manager g)
    then process_test_message post json_loads (py_strip raw) (dispatched g (py_strip raw))
    else process_normal_message post json_loads contains_profanity (py_strip raw)
           (dispatched g (py_strip raw)).
Proof.
  intros Hp Hne Hmd Hc.
  unfold send_message, bindM, getM, add_message, append_turn, modifyM, getTM, retM.
  rewrite Hp. destruct (String.eqb_spec (py_strip raw) "") as [E|_]; [contradiction|].
  rewrite Hmd. simpl. rewrite Hc. simpl.
  destruct (in_test (test_manager g)); reflexivity.
Qed.

(** X1: the refusal path of [send_message] once the echo is shown. *)
Lemma send_message_refusal post json_loads contains_profanity (raw : string) (g : Gui) :
  is_processing g = false ->
  py_strip raw <> "" ->
  format_markdown_hangs (py_strip raw ++ nl ++ nl) = false ->
  contains_profanity (py_strip raw) = true ->
  send_message post json_loads contains_profanity raw g =
    (mkGui (conversation_history g) (test_manager g)
           (chat_display g ++ [("You", py_strip raw, false); ("JoSi", profanity_refusal, true)])
           false (requests_sent g), Ret tt).
Proof.
  intros Hp Hne Hmd Hc.
  unfold send_message, bindM, getM, add_message, enable_input, modifyM, retM.
  rewrite Hp. destruct (String.eqb_spec (py_strip raw) "") as [E|_]; [contradiction|].
  rewrite Hmd. simpl. rewrite Hc. simpl.
  destruct g. simpl. rewrite <- app_assoc. reflexivity.
Qed.

(** A filter flagging every text that contains "shit". *)
Definition shit_filter (s : string) : bool := has_sub s "shit".

(** C7, failing input: the flagged message "shit **" holds one [**]; the
    echo [add_message("You", ...)] runs [format_markdown], whose loop never
    ends on it, so [send_message] never returns and the refusal is never
    shown (no remote call, history untouched). *)
Lemma flagged_message_hangs_before_refusal :
  send_message (fun _ => Raised (RequestException "unused")) json_loads_lite shit_filter
               "shit **" init_gui
    = (init_gui, Hang) /\
  shit_filter (py_strip "shit **") = true.
Proof. split; vm_compute; reflexivity. Qed.

(** C9: in test mode, a message that is dispatched (not ignored as empty,
    not refused by the filter, its echo shown) is appended to the
    conversation history as a "user" turn, and nothing else is ever
    appended there during the test flow: whatever the flow does, raises or
    gets stuck in, the history afterwards is the old one plus that turn. *)
Theorem test_mode_history_appends_user_turn post json_loads contains_profanity
    (raw : string) (g : Gui) :
  is_processing g = false ->
  in_test (test_manager g) = true ->
  py_strip raw <> "" ->
  format_markdown_hangs (py_strip raw ++ nl ++ nl) = false ->
  contains_profanity (py_strip raw) = false ->
  conversation_history (fst (send_message post json_loads contains_profanity raw g))
    = (conversation_history g ++ [mkTurn "user" (py_strip raw)])%list.
Proof.
  intros Hp Ht Hne Hmd Hc.
  rewrite (send_message_dispatch _ _ _ _ _ Hp Hne Hmd Hc), Ht.
  rewrite keeps_process_test_message. reflexivity.
Qed.

Lemma test_mode_history_appends_user_turn_witness :
  let P := demo_post empty_first_reply (json_quote "Score: 70%") in
  let g := fst (start_test init_gui) in
  (is_processing g = false /\ in_test (test_manager g) = true /\
   py_strip " Acme " <> "" /\ format_markdown_hangs (py_strip " Acme " ++ nl ++ nl) = false /\
   no_profanity (py_strip " Acme ") = false) /\
  conversation_history (fst (send_message P json_loads_lite no_profanity " Acme " g))
    = (conversation_history g ++ [mkTurn "user" (py_strip " Acme ")])%list.
Proof.
  intros P g.
  assert (H1 : is_processing g = false) by reflexivity.
  assert (H2 : in_test (test_manager g) = true) by reflexivity.
  assert (H3 : py_strip " Acme " <> "") by (vm_compute; discriminate).
  assert (H4 : format_markdown_hangs (py_strip " Acme " ++ nl ++ nl) = false) by reflexivity.
  assert (H5 : no_profanity (py_strip " Acme ") = false) by reflexivity.
  split; [repeat split; assumption|].
  exact (test_mode_history_appends_user_turn P json_loads_lite no_profanity " Acme " g
           H1 H2 H3 H4 H5).
Defined.

(** The whole run of [send_message] for a dispatched message in normal
    chat mode: one request with [chat_prompt] over the history that
    already holds the new user turn; a [str] reply is appended as a
    "JoSi" turn and shown (as an error exactly when it starts with
    "Error"); any other reply makes [startswith] raise, which is shown. *)
Lemma normal_send_outcome post json_loads contains_profanity (raw : string) (g : Gui) :
  is_processing g = false ->
  in_test (test_manager g) = false ->
  py_strip raw <> "" ->
  format_markdown_hangs (py_strip raw ++ nl ++ nl) = false ->
  contains_profanity (py_strip raw) = false ->
  let m := py_strip raw in
  let h' := (conversation_history g ++ [mkTurn "user" m])%list in
  let d' := (chat_display g ++ [("You", m, false)])%list in
  let rq := (requests_sent g ++ [request_body (chat_prompt h' m)])%list in
  send_message post json_loads contains_profanity raw g =
    match remote_answer post json_loads (chat_prompt h' m) with
    | PStr r =>
        if negb (py_startswith r "Error") && format_markdown_hangs (r ++ nl ++ nl)
        then (mkGui (h' ++ [mkTurn "JoSi" r]) (test_manager g) d' true rq, Hang)
        else (mkGui (h' ++ [mkTurn "JoSi" r]) (test_manager g)
                    (d' ++ [("JoSi", r, py_startswith r "Error")]) false rq, Ret tt)
    | v =>
        (mkGui h' (test_manager g)
               (d' ++ [("JoSi", "Error: " ++ exn_str (AttributeError (sq ++ type_name v ++ sq
                          ++ " object has no attribute 'startswith'")), true)]) false rq, Ret tt)
    end.
Proof.
  intros Hp Ht Hne Hmd Hc m h' d' rq.
  rewrite (send_message_dispatch _ _ _ _ _ Hp Hne Hmd Hc), Ht.
  unfold process_normal_message, get_response, catchM, bindM, getM, call_gemini_api,
    modifyM, retM, liftR, append_turn, enable_input, add_message.
  subst m h' d' rq. rewrite Hc.
  cbn -[nl format_markdown_hangs py_startswith chat_prompt remote_answer].
  destruct (remote_answer post json_loads _) as [| | | r | |] eqn:E;
    cbn -[nl format_markdown_hangs py_startswith chat_prompt remote_answer]; try reflexivity.
  destruct (negb (py_startswith r "Error") && format_markdown_hangs (r ++ nl ++ nl));
    reflexivity.
Qed.

(** A reply of status 500 with body "server error" to every request. *)
Definition post_500 (_ : pyval) : http_outcome := Response 500 "server error".

(** C2, counterexample: with the remote stubbed to HTTP 500 "server
    error", sending "hello" in normal chat appends the sentinel
    "Error 500: server error" to the history as a "JoSi" turn (and shows
    it as an error). *)
Lemma normal_error_sentinel_appended :
  let g' := fst (send_message post_500 json_loads_lite no_profanity "hello" init_gui) in
  conversation_history g' = [mkTurn "user" "hello"; mkTurn "JoSi" "Error 500: server error"] /\
  chat_display g' = [("You", "hello", false); ("JoSi", "Error 500: server error", true)].
Proof. vm_compute. split; reflexivity. Qed.

(** C2, amended: in normal chat mode, when the remote call for a
    dispatched message yields a string [r], [r] is appended unmodified to
    the history as a "JoSi" turn after the user turn, whether or not it
    starts with "Error"; the prefix decides only how [r] is shown: as an
    error exactly when it starts with "Error". *)
Theorem normal_reply_appended_as_turn post json_loads contains_profanity
    (raw : string) (g : Gui) (r : string) :
  is_processing g = false ->
  in_test (test_manager g) = false ->
  py_strip raw <> "" ->
  format_markdown_hangs (py_strip raw ++ nl ++ nl) = false ->
  contains_profanity (py_strip raw) = false ->
  remote_answer post json_loads
    (chat_prompt (conversation_history g ++ [mkTurn "user" (py_strip raw)]) (py_strip raw))
    = PStr r ->
  let g' := fst (send_message post json_loads contains_profanity raw g) in
  conversation_history g'
    = (conversation_history g ++ [mkTurn "user" (py_strip raw); mkTurn "JoSi" r])%list /\
  (negb (py_startswith r "Error") && format_markdown_hangs (r ++ nl ++ nl) = false ->
   chat_display g' = (chat_display g ++ [("You", py_strip raw, false);
                                        ("JoSi", r, py_startswith r "Error")])%list).
Proof.
  intros Hp Ht Hne Hmd Hc Hr g'. subst g'.
  rewrite (normal_send_outcome _ _ _ _ _ Hp Ht Hne Hmd Hc). cbv zeta. rewrite Hr.
  destruct (negb (py_startswith r "Error") && format_markdown_hangs (r ++ nl ++ nl)) eqn:B;
    simpl; rewrite <- app_assoc; simpl.
  - split; [reflexivity | discriminate].
  - split; [reflexivity | intros _; rewrite <- app_assoc; reflexivity].
Qed.

Lemma normal_reply_appended_as_turn_witness :
  let m := py_strip "hello" in
  (is_processing init_gui = false /\ in_test (test_manager init_gui) = false /\
   m <> "" /\ format_markdown_hangs (m ++ nl ++ nl) = false /\ no_profanity m = false /\
   remote_answer post_500 json_loads_lite
     (chat_prompt (conversation_history init_gui ++ [mkTurn "user" m]) m)
     = PStr "Error 500: server error") /\
  (let g' := fst (send_message post_500 json_loads_lite no_profanity "hello" init_gui) in
   conversation_history g'
     = (conversation_history init_gui ++ [mkTurn "user" m; mkTurn "JoSi" "Error 500: server error"])%list /\
   (negb (py_startswith "Error 500: server error" "Error")
      && format_markdown_hangs ("Error 500: server error" ++ nl ++ nl) = false ->
    chat_display g' = (chat_display init_gui ++ [("You", m, false);
          ("JoSi", "Error 500: server error", py_startswith "Error 500: server error" "Error")])%list)).
Proof.
  intros m.
  assert (H1 : is_processing init_gui = false) by reflexivity.
  assert (H2 : in_test (test_manager init_gui) = false) by reflexivity.
  assert (H3 : m <> "") by (vm_compute; discriminate).
  assert (H4 : format_markdown_hangs (m ++ nl ++ nl) = false) by (vm_compute; reflexivity).
  assert (H5 : no_profanity m = false) by reflexivity.
  assert (H6 : remote_answer post_500 json_loads_lite
     (chat_prompt (conversation_history init_gui ++ [mkTurn "user" m]) m)
     = PStr "Error 500: server error") by (vm_compute; reflexivity).
  split; [repeat split; assumption|].
  exact (normal_reply_appended_as_turn post_500 json_loads_lite no_profanity "hello" init_gui
           "Error 500: server error" H1 H2 H3 H4 H5 H6).
Defined.

(* ------------------------------------------------------------------ *)
(** ** The chat prompt window *)

(** The prompt as the specification words it: the system instructions,
    the (at most) 5 most recent turns recorded before the message, then
    the new user turn. *)
Definition spec_chat_prompt (recorded : list Turn) (prompt : string) : string :=
  SYSTEM_PROMPT ++ nl ++ nl ++ String.concat nl (map render_turn (last5 recorded))
  ++ nl ++ "User: " ++ prompt.

Lemma last5_snoc {A} (h : list A) (u : A) :
  last5 (h ++ [u]) = (skipn (List.length h - 4) h ++ [u])%list.
Proof.
  unfold last5. rewrite length_app. simpl.
  replace (List.length h + 1 - 5) with (List.length h - 4) by lia.
  rewrite skipn_app. replace (List.length h - 4 - List.length h) with 0 by lia.
  reflexivity.
Qed.

(** A remote that answers "ok" to everything. *)
Definition post_ok : pyval -> http_outcome := demo_post "" (json_quote "ok").

(** Three exchanges in normal chat: six turns recorded. *)
Definition chat_after_three : Gui :=
  run_sends post_ok json_loads_lite no_profanity ["a"; "b"; "c"] init_gui.

(** C8, counterexample: after three exchanges, the prompt sent for "d"
    holds the four most recent earlier turns and the new turn "user: d",
    then "User: d" again; the fifth most recent earlier turn "JoSi: ok" is
    left out, so it is not the prompt of the specification. *)
Lemma chat_prompt_window_includes_new_turn :
  let g' := fst (send_message post_ok json_loads_lite no_profanity "d" chat_after_three) in
  map prompt_of (skipn 3 (requests_sent g'))
    = [SYSTEM_PROMPT ++ nl ++ nl
       ++ String.concat nl ["user: b"; "JoSi: ok"; "user: c"; "JoSi: ok"; "user: d"]
       ++ nl ++ "User: d"] /\
  map prompt_of (skipn 3 (requests_sent g'))
    <> [spec_chat_prompt (conversation_history chat_after_three) "d"].
Proof.
  split.
  - vm_compute. reflexivity.
  - vm_compute. congruence.
Qed.

(** C8, amended: for a dispatched message [m] in normal chat mode, exactly
    one request is sent, whose prompt is the system instructions, the
    window of the last 5 turns of the history that already ends with the
    new user turn (so at most 4 earlier turns, then "user: m"), then
    "User: m"; all earlier turns stay in the history. *)
Theorem normal_prompt_window post json_loads contains_profanity (raw : string) (g : Gui) :
  is_processing g = false ->
  in_test (test_manager g) = false ->
  py_strip raw <> "" ->
  format_markdown_hangs (py_strip raw ++ nl ++ nl) = false ->
  contains_profanity (py_strip raw) = false ->
  let m := py_strip raw in
  let h := conversation_history g in
  let g' := fst (send_message post json_loads contains_profanity raw g) in
  requests_sent g'
    = (requests_sent g ++ [request_body (chat_prompt (h ++ [mkTurn "user" m]) m)])%list /\
  chat_prompt (h ++ [mkTurn "user" m]) m
    = SYSTEM_PROMPT ++ nl ++ nl
      ++ String.concat nl (map render_turn (skipn (List.length h - 4) h ++ [mkTurn "user" m]))
      ++ nl ++ "User: " ++ m /\
  exists rest, conversation_history g' = (h ++ mkTurn "user" m :: rest)%list.
Proof.
  intros Hp Ht Hne Hmd Hc m h g'. subst g'.
  rewrite (normal_send_outcome _ _ _ _ _ Hp Ht Hne Hmd Hc). cbv zeta.
  split; [|split].
  - destruct (remote_answer _ _ _) as [| | | r | |]; try reflexivity.
    destruct (negb (py_startswith r "Error") && format_markdown_hangs (r ++ nl ++ nl));
      reflexivity.
  - unfold chat_prompt. rewrite last5_snoc. reflexivity.
  - destruct (remote_answer _ _ _) as [| | | r | |];
      try (exists []; reflexivity).
    destruct (negb (py_startswith r "Error") && format_markdown_hangs (r ++ nl ++ nl));
      exists [mkTurn "JoSi" r]; simpl; rewrite <- app_assoc; reflexivity.
Qed.

Lemma normal_prompt_window_witness :
  let g := chat_after_three in
  let m := py_strip "d" in
  let h := conversation_history g in
  (is_processing g = false /\ in_test (test_manager g) = false /\ m <> "" /\
   format_markdown_hangs (m ++ nl ++ nl) = false /\ no_profanity m = false) /\
  (let g' := fst (send_message post_ok json_loads_lite no_profanity "d" g) in
   requests_sent g'
     = (requests_sent g ++ [request_body (chat_prompt (h ++ [mkTurn "user" m]) m)])%list /\
   chat_prompt (h ++ [mkTurn "user" m]) m
     = SYSTEM_PROMPT ++ nl ++ nl
       ++ String.concat nl (map render_turn (skipn (List.length h - 4) h ++ [mkTurn "user" m]))
       ++ nl ++ "User: " ++ m /\
   exists rest, conversation_history g' = (h ++ mkTurn "user" m :: rest)%list).
Proof.
  intros g m h.
  assert (H1 : is_processing g = false) by (vm_compute; reflexivity).
  assert (H2 : in_test (test_manager g) = false) by (vm_compute; reflexivity).
  assert (H3 : m <> "") by (vm_compute; discriminate).
  assert (H4 : format_markdown_hangs (m ++ nl ++ nl) = false) by (vm_compute; reflexivity).
  assert (H5 : no_profanity m = false) by reflexivity.
  split; [repeat split; assumption|].
  exact (normal_prompt_window post_ok json_loads_lite no_profanity "d" g H1 H2 H3 H4 H5).
Defined.

(* ------------------------------------------------------------------ *)
(** ** Test session invariants: a weakest-precondition calculus for [M] *)

(** [wp m Q X H g]: run from [g], [m] either returns [a] in a state
    satisfying [Q a], or raises in a state satisfying [X], or loops in a
    state satisfying [H]. *)
Definition wp {A} (m : M A) (Q : A -> Gui -> Prop) (X H : Gui -> Prop) (g : Gui) : Prop :=
  match m g with
  | (g', Ret a) => Q a g'
  | (g', Throw _) => X g'
  | (g', Hang) => H g'
  end.

Lemma wp_ret {A} (a : A) Q X H g : Q a g -> wp (retM a) Q X H g.
Proof. exact (fun h => h). Qed.

Lemma wp_bind {A B} (m : M A) (k : A -> M B) Q X H g :
  wp m (fun a g' => wp (k a) Q X H g') X H g -> wp (bindM m k) Q X H g.
Proof. unfold wp, bindM. destruct (m g) as [g' [a|e|]]; exact (fun h => h). Qed.

Lemma wp_get Q X H g : Q g g -> wp getM Q X H g.
Proof. exact (fun h => h). Qed.

Lemma wp_modify f Q X H g : Q tt (f g) -> wp (modifyM f) Q X H g.
Proof. exact (fun h => h). Qed.

Lemma wp_raise {A} e Q X H g : X g -> wp (A := A) (raise e) Q X H g.
Proof. exact (fun h => h). Qed.

Lemma wp_liftR {A} (r : res A) Q X H g :
  match r with Ok a => Q a g | Exc _ => X g end -> wp (liftR r) Q X H g.
Proof. unfold wp, liftR. destruct r; exact (fun h => h). Qed.

Lemma wp_catch {A} (m : M A) (h : exn -> M A) Q X H g :
  wp m Q (fun g' => forall e, wp (h e) Q X H g') H g -> wp (catchM m h) Q X H g.
Proof.
  unfold wp, catchM. destruct (m g) as [g' [a|e|]]; intros Hw; [exact Hw | apply (Hw e) | exact Hw].
Qed.

Lemma wp_add_message s msg e Q X H g :
  H g -> Q tt (set_display (chat_display g ++ [(s, msg, e)]) g) ->
  wp (add_message s msg e) Q X H g.
Proof.
  unfold wp, add_message. destruct (negb e && format_markdown_hangs (msg ++ nl ++ nl)); auto.
Qed.


Lemma wp_call post json_loads p Q X H g :
  Q (remote_answer post json_loads p) (log_request (request_body p) g) ->
  wp (call_gemini_api post json_loads p) Q X H g.
Proof. exact (fun h => h). Qed.



Ltac wp_run :=
  repeat (cbv beta; lazymatch goal with
  | |- wp (bindM _ _) _ _ _ _ => apply wp_bind
  | |- wp (retM _) _ _ _ _ => apply wp_ret
  | |- wp getM _ _ _ _ => apply wp_get
  | |- wp (modifyM _) _ _ _ _ => apply wp_modify
  | |- wp (raise _) _ _ _ _ => apply wp_raise
  | |- wp (liftR _) _ _ _ _ => apply wp_liftR
  | |- wp (catchM _ _) _ _ _ _ => apply wp_catch
  | |- wp (call_gemini_api _ _ _) _ _ _ _ => apply wp_call
  | |- wp (add_message _ _ _) _ _ _ _ => apply wp_add_message
  | |- wp getTM _ _ _ _ => unfold getTM
  | |- wp (modifyTM _) _ _ _ _ => unfold modifyTM
  | |- wp enable_input _ _ _ _ => unfold enable_input
  | |- wp (append_turn _) _ _ _ _ => unfold append_turn
  | |- wp (if ?b then _ else _) _ _ _ _ => let E := fresh "E" in destruct b eqn:E
  | |- forall _ : exn, _ => intros ?
  end).

Ltac wp_run_all :=
  wp_run;
  repeat (lazymatch goal with
          | |- match ?r with Ok _ => _ | Exc _ => _ end => let E := fresh "E" in destruct r eqn:E
          end; wp_run).







Section Invariant.
Variable post : pyval -> http_outcome.
Variable json_loads : string -> res pyval.
Hypothesis eval_str : forall t, exists s,
  remote_answer post json_loads (eval_prompt t) = PStr s /\
  format_markdown_hangs (s ++ nl ++ nl) = false.







End Invariant.




Section CompanyRole.
Variable post : pyval -> http_outcome.
Variable json_loads : string -> res pyval.







End CompanyRole.








Lemma gemini_check_company_verdict_witness :
  let P := fun _ : pyval => Response 200 (gemini_body (json_quote " Valid ")) in
  remote_answer P json_loads_lite (check_prompt "Acme") = PStr " Valid " /\
  snd (gemini_check_company P json_loads_lite "Acme" init_gui) = Ret true.
Proof.
  intros P.
  assert (H : remote_answer P json_loads_lite (check_prompt "Acme") = PStr " Valid ")
    by (vm_compute; reflexivity).
  split; [exact H|].
  apply (proj2 (proj1 (proj2 (gemini_check_company_verdict P json_loads_lite "Acme" " Valid "
                                  init_gui H)))).
  vm_compute. reflexivity.
Defined.

Lemma send_message_refusal_witness :
  (is_processing init_gui = false /\ py_strip "shit" <> "" /\
   format_markdown_hangs (py_strip "shit" ++ nl ++ nl) = false /\
   shit_filter (py_strip "shit") = true) /\
  send_message post_500 json_loads_lite shit_filter "shit" init_gui =
    (mkGui (conversation_history init_gui) (test_manager init_gui)
           (chat_display init_gui ++ [("You", py_strip "shit", false);
                                      ("JoSi", profanity_refusal, true)])
           false (requests_sent init_gui), Ret tt).
Proof.
  assert (H1 : is_processing init_gui = false) by reflexivity.
  assert (H2 : py_strip "shit" <> "") by (vm_compute; discriminate).
  assert (H3 : format_markdown_hangs (py_strip "shit" ++ nl ++ nl) = false)
    by (vm_compute; reflexivity).
  assert (H4 : shit_filter (py_strip "shit") = true) by (vm_compute; reflexivity).
  split; [repeat split; assumption|].
  exact (send_message_refusal post_500 json_loads_lite shit_filter "shit" init_gui H1 H2 H3 H4).
Defined.

(* ------------------------------------------------------------------ *)
(** ** The chat display is append-only *)

(** [m] only ever appends to [chat_display], whatever its outcome. *)
Definition display_grows {A} (m : M A) : Prop :=
  forall g, exists rest, chat_display (fst (m g)) = (chat_display g ++ rest)%list.

Create HintDb grows.

Lemma grows_ret {A} (a : A) : display_grows (retM a).
Proof. intro g. exists []. rewrite app_nil_r. reflexivity. Qed.

Lemma grows_get : display_grows getM.
Proof. intro g. exists []. rewrite app_nil_r. reflexivity. Qed.

Lemma grows_raise {A} (e : exn) : display_grows (A := A) (raise e).
Proof. intro g. exists []. rewrite app_nil_r. reflexivity. Qed.

Lemma grows_liftR {A} (r : res A) : display_grows (liftR r).
Proof. intro g. exists []. rewrite app_nil_r. destruct r; reflexivity. Qed.

Lemma grows_modifyTM f : display_grows (modifyTM f).
Proof. intro g. exists []. rewrite app_nil_r. reflexivity. Qed.

Lemma grows_processing b : display_grows (modifyM (set_processing b)).
Proof. intro g. exists []. rewrite app_nil_r. reflexivity. Qed.

Lemma grows_log r : display_grows (modifyM (log_request r)).
Proof. intro g. exists []. rewrite app_nil_r. reflexivity. Qed.

Lemma grows_append_turn t : display_grows (append_turn t).
Proof. intro g. exists []. rewrite app_nil_r. reflexivity. Qed.

Lemma grows_enable_input : display_grows enable_input.
Proof. intro g. exists []. rewrite app_nil_r. reflexivity. Qed.

Lemma grows_add_message s m e : display_grows (add_message s m e).
Proof.
  intro g. unfold add_message.
  destruct (negb e && format_markdown_hangs (m ++ nl ++ nl)).
  - exists []. rewrite app_nil_r. reflexivity.
  - exists [(s, m, e)]. reflexivity.
Qed.

Lemma grows_add_message_val s v e : display_grows (add_message_val s v e).
Proof. destruct v; try apply grows_add_message; apply grows_raise. Qed.

Lemma grows_bind {A B} (m : M A) (k : A -> M B) :
  display_grows m -> (forall a, display_grows (k a)) -> display_grows (bindM m k).
Proof.
  intros Hm Hk g. unfold bindM.
  destruct (Hm g) as [r1 E1]. destruct (m g) as [g' [a|e|]]; simpl in *.
  - destruct (Hk a g') as [r2 E2]. exists (r1 ++ r2)%list.
    rewrite E2, E1, app_assoc. reflexivity.
  - exists r1; exact E1.
  - exists r1; exact E1.
Qed.

Lemma grows_catch {A} (m : M A) (h : exn -> M A) :
  display_grows m -> (forall e, display_grows (h e)) -> display_grows (catchM m h).
Proof.
  intros Hm Hh g. unfold catchM.
  destruct (Hm g) as [r1 E1]. destruct (m g) as [g' [a|e|]]; simpl in *.
  - exists r1; exact E1.
  - destruct (Hh e g') as [r2 E2]. exists (r1 ++ r2)%list.
    rewrite E2, E1, app_assoc. reflexivity.
  - exists r1; exact E1.
Qed.

#[local] Hint Resolve grows_ret grows_get grows_raise grows_liftR grows_modifyTM
  grows_processing grows_log grows_append_turn grows_enable_input grows_add_message
  grows_add_message_val : grows.

Ltac grows_solve :=
  repeat match goal with
         | |- display_grows (bindM _ _) => apply grows_bind; [|intro]
         | |- display_grows (catchM _ _) => apply grows_catch; [|intro]
         | |- display_grows (if ?b then _ else _) => destruct b
         | |- display_grows (match ?x with _ => _ end) => destruct x
         end;
  eauto with grows.

Section Grows.
Variable post : pyval -> http_outcome.
Variable json_loads : string -> res pyval.
Variable contains_profanity : string -> bool.

Lemma grows_call prompt : display_grows (call_gemini_api post json_loads prompt).
Proof. unfold call_gemini_api. grows_solve. Qed.
#[local] Hint Resolve grows_call : grows.

Lemma grows_exit_test : display_grows exit_test.
Proof. unfold exit_test. grows_solve. Qed.
#[local] Hint Resolve grows_exit_test : grows.

Lemma grows_start_test : display_grows start_test.
Proof. unfold start_test. grows_solve. Qed.

Lemma grows_evaluate : display_grows (evaluate_answers post json_loads).
Proof. unfold evaluate_answers, getTM. grows_solve. Qed.
#[local] Hint Resolve grows_evaluate : grows.

Lemma grows_next_question : display_grows next_question.
Proof. unfold next_question, getTM. grows_solve. Qed.
#[local] Hint Resolve grows_next_question : grows.

Lemma grows_ask_next_question : display_grows (ask_next_question post json_loads).
Proof. unfold ask_next_question, getTM. grows_solve. Qed.
#[local] Hint Resolve grows_ask_next_question : grows.

Lemma grows_handle_test_flow u : display_grows (handle_test_flow post json_loads u).
Proof.
  unfold handle_test_flow, set_company, gemini_check_company, set_role,
    generate_test_questions, gemini_generate_questions, store_answer,
    all_answers_collected, getTM.
  grows_solve.
Qed.
#[local] Hint Resolve grows_handle_test_flow : grows.

Lemma grows_dispatch_tail u :
  display_grows
    (if contains_profanity u then add_message "JoSi" profanity_refusal true ;; enable_input
     else append_turn (mkTurn "user" u) ;; modifyM (set_processing true) ;;
          t <- getTM ;;
          if in_test t then process_test_message post json_loads u
          else process_normal_message post json_loads contains_profanity u).
Proof.
  unfold process_test_message, process_normal_message, get_response, getTM. grows_solve.
Qed.

Lemma grows_send_message raw : display_grows (send_message post json_loads contains_profanity raw).
Proof.
  unfold send_message. apply grows_bind; [apply grows_get|intro g].
  destruct (is_processing g); [apply grows_ret|].
  destruct (String.eqb (py_strip raw) ""); [apply grows_ret|].
  apply grows_bind; [apply grows_add_message|intros _]. apply grows_dispatch_tail.
Qed.

End Grows.

(** X2: no user action removes or rewrites a message already shown. *)
Theorem chat_display_append_only post json_loads contains_profanity (g g' : Gui) :
  clos_refl_trans Gui (gui_step post json_loads contains_profanity) g g' ->
  exists rest, chat_display g' = (chat_display g ++ rest)%list.
Proof.
  induction 1 as [g g' Hs| g | g1 g2 g3 _ [r1 E1] _ [r2 E2]].
  - destruct Hs as [raw g0|g0|g0].
    + apply grows_send_message.
    + apply grows_start_test.
    + apply grows_exit_test.
  - exists []. rewrite app_nil_r. reflexivity.
  - exists (r1 ++ r2)%list. rewrite E2, E1, app_assoc. reflexivity.
Qed.

(** X3: a message accepted from an idle window is echoed as "You" before
    anything else the send adds to the display. *)
Theorem send_message_echo_first post json_loads contains_profanity (raw : string) (g : Gui) :
  is_processing g = false ->
  py_strip raw <> "" ->
  format_markdown_hangs (py_strip raw ++ nl ++ nl) = false ->
  exists rest,
    chat_display (fst (send_message post json_loads contains_profanity raw g)) =
      (chat_display g ++ ("You", py_strip raw, false) :: rest)%list.
Proof.
  intros Hp Hne Hmd.
  unfold send_message at 1. unfold bindM at 1. unfold getM at 1. rewrite Hp.
  destruct (String.eqb_spec (py_strip raw) "") as [E|_]; [contradiction|].
  unfold bindM at 1. unfold add_message at 1. rewrite Hmd. cbn [negb andb]. cbv iota beta.
  destruct (grows_dispatch_tail post json_loads contains_profanity (py_strip raw)
              (set_display (chat_display g ++ [("You", py_strip raw, false)]) g)) as [r E].
  exists r. rewrite E. simpl. rewrite <- app_assoc. reflexivity.
Qed.

Lemma wp_everywhere {A} (m : M A) (Q : A -> Gui -> Prop) (X H : Gui -> Prop) g :
  (forall a g', Q a g') -> (forall g', X g') -> (forall g', H g') -> wp m Q X H g.
Proof. intros HQ HX HH. unfold wp. destruct (m g) as [g' [a|e|]]; auto. Qed.

Lemma wp_send_message_no_throw post json_loads contains_profanity (raw : string) (g : Gui) :
  wp (send_message post json_loads contains_profanity raw)
     (fun _ g' => is_processing g = false -> is_processing g' = false)
     (fun _ => False) (fun _ => True) g.
Proof.
  unfold send_message, process_test_message, process_normal_message, get_response.
  wp_run_all.
  all: try exact I; try (intro Hf; discriminate Hf); try (intros _; assumption);
    try (intros _; reflexivity).
  apply wp_everywhere; intros; wp_run; first [exact I | intros _; reflexivity].
Qed.

(** The [try] block of [process_normal_message]. *)
Definition normal_reply_try post json_loads contains_profanity (user_text : string) : M unit :=
  resp <- get_response post json_loads contains_profanity user_text ;;
  is_error <- liftR (startswith_error resp) ;;
  append_turn (mkTurn "JoSi" (py_str resp)) ;;
  add_message "JoSi" (py_str resp) is_error.

Lemma process_normal_message_try post json_loads contains_profanity (u : string) :
  process_normal_message post json_loads contains_profanity u =
  (catchM (normal_reply_try post json_loads contains_profanity u)
          (fun e => add_message "JoSi" ("Error: " ++ exn_str e) true) ;;
   enable_input).
Proof. reflexivity. Qed.

(** X4: [send_message] never lets an exception escape; when it returns
    from an idle window the input is enabled again; a failure of the test
    flow is caught and shown as "Error in test flow: ..." and a failure of
    the normal chat path as "Error: ...", both as errors, after which the
    input is enabled again. *)
Theorem send_message_never_raises post json_loads contains_profanity (raw : string) (g : Gui) :
  let u := py_strip raw in
  (forall e, snd (send_message post json_loads contains_profanity raw g) <> Throw e) /\
  (is_processing g = false ->
   snd (send_message post json_loads contains_profanity raw g) = Ret tt ->
   is_processing (fst (send_message post json_loads contains_profanity raw g)) = false) /\
  (forall e,
     is_processing g = false -> u <> "" -> format_markdown_hangs (u ++ nl ++ nl) = false ->
     contains_profanity u = false -> in_test (test_manager g) = true ->
     snd (handle_test_flow post json_loads u (dispatched g u)) = Throw e ->
     let g1 := fst (handle_test_flow post json_loads u (dispatched g u)) in
     send_message post json_loads contains_profanity raw g =
       (set_processing false
          (set_display (chat_display g1 ++ [("JoSi", "Error in test flow: " ++ exn_str e, true)]) g1),
        Ret tt)) /\
  (forall e,
     is_processing g = false -> u <> "" -> format_markdown_hangs (u ++ nl ++ nl) = false ->
     contains_profanity u = false -> in_test (test_manager g) = false ->
     snd (normal_reply_try post json_loads contains_profanity u (dispatched g u)) = Throw e ->
     let g1 := fst (normal_reply_try post json_loads contains_profanity u (dispatched g u)) in
     send_message post json_loads contains_profanity raw g =
       (set_processing false
          (set_display (chat_display g1 ++ [("JoSi", "Error: " ++ exn_str e, true)]) g1),
        Ret tt)).
Proof.
  intros u.
  pose proof (wp_send_message_no_throw post json_loads contains_profanity raw g) as W.
  refine (conj _ (conj _ (conj _ _))).
  - intros e. unfold wp in W. destruct (send_message post json_loads contains_profanity raw g) as [g' o].
    simpl. destruct o; [discriminate|contradiction|discriminate].
  - intros Hp Hr. unfold wp in W. destruct (send_message post json_loads contains_profanity raw g) as [g' o].
    simpl in *. subst o. exact (W Hp).
  - intros e Hp Hne Hmd Hc Hin Ht g1.
    rewrite (send_message_dispatch _ _ _ _ _ Hp Hne Hmd Hc), Hin.
    unfold process_test_message, bindM, catchM. subst g1. unfold u in *.
    destruct (handle_test_flow post json_loads (py_strip raw) (dispatched g (py_strip raw))) as [g1 o].
    simpl in Ht. subst o. reflexivity.
  - intros e Hp Hne Hmd Hc Hin Ht g1.
    rewrite (send_message_dispatch _ _ _ _ _ Hp Hne Hmd Hc), Hin.
    rewrite process_normal_message_try.
    unfold bindM, catchM. subst g1. unfold u in *.
    destruct (normal_reply_try post json_loads contains_profanity (py_strip raw)
                (dispatched g (py_strip raw))) as [g1 o].
    simpl in Ht. subst o. reflexivity.
Qed.

(* ------------------------------------------------------------------ *)
(** ** [next_question] walks the technical, then the behavioral questions *)

(** [n] successive calls of [next_question], their results in order. *)
Fixpoint next_questions (n : nat) : M (list pyval) :=
  match n with
  | O => retM []
  | S k => q <- next_question ;; qs <- next_questions k ;; retM (q :: qs)
  end.

Lemma seq_index_in (n i : nat) : (i < n)%nat -> seq_index n (Z.of_nat i) = Some i.
Proof.
  intros Hi. unfold seq_index.
  destruct (Z.ltb_spec (Z.of_nat i) 0); [lia|].
  destruct (Z.leb_spec 0 (Z.of_nat i)); [|lia].
  destruct (Z.ltb_spec (Z.of_nat i) (Z.of_nat n)); [|lia].
  simpl. rewrite Nat2Z.id. reflexivity.
Qed.

Lemma skipn_cons_nth {A} (l : list A) (i : nat) (d : A) :
  (i < List.length l)%nat -> skipn i l = nth i l d :: skipn (S i) l.
Proof.
  revert i. induction l as [|x l IH]; intros i Hi; simpl in Hi; [lia|].
  destruct i; [reflexivity|]. simpl. apply IH. lia.
Qed.

Lemma set_tm_index_twice (i j : nat) (g : Gui) :
  set_tm (tm_set_index j (test_manager (set_tm (tm_set_index i (test_manager g)) g)))
         (set_tm (tm_set_index i (test_manager g)) g) =
  set_tm (tm_set_index j (test_manager g)) g.
Proof. destruct g as [h [] d p r]. reflexivity. Qed.

Lemma set_tm_index_same (g : Gui) :
  set_tm (tm_set_index (question_index (test_manager g)) (test_manager g)) g = g.
Proof. destruct g as [h [] d p r]. reflexivity. Qed.

(** A question left: [next_question] returns it and advances the index. *)
Lemma next_question_at (ts bs : list string) (i : nat) (g : Gui) :
  Forall (fun s => s <> "") (ts ++ bs) ->
  technical_questions (test_manager g) = PList (map PStr ts) ->
  behavioral_questions (test_manager g) = PList (map PStr bs) ->
  question_index (test_manager g) = i ->
  (i < List.length ts + List.length bs)%nat ->
  next_question g =
    (set_tm (tm_set_index (S i) (test_manager g)) g, Ret (PStr (nth i (ts ++ bs) ""))).
Proof.
  intros Hne Ht Hb Hi Hk.
  assert (Hlt : (i < List.length (ts ++ bs))%nat) by (rewrite length_app; lia).
  set (x := nth i (ts ++ bs) "").
  assert (Hx : x <> "") by (apply (proj1 (Forall_forall _ _) Hne), nth_In, Hlt).
  unfold next_question, getTM, bindM, getM, retM, liftR, modifyTM, modifyM.
  rewrite Ht, Hb. simpl. rewrite !length_map. rewrite Hi.
  destruct (Nat.ltb_spec i (List.length ts)) as [H1|H1].
  - rewrite seq_index_in by exact H1. rewrite nth_error_map, (nth_error_nth' ts "" H1).
    subst x. rewrite app_nth1 by exact H1.
    simpl. destruct (String.eqb_spec (nth i ts "") "") as [E|_];
      [rewrite app_nth1 in Hx by exact H1; contradiction|]. reflexivity.
  - destruct (Nat.ltb_spec i (List.length ts + List.length bs)) as [H2|H2]; [|lia].
    replace (Z.of_nat i - Z.of_nat (List.length ts))%Z with (Z.of_nat (i - List.length ts))
      by lia.
    rewrite seq_index_in by lia.
    rewrite nth_error_map,
      (nth_error_nth' bs "" (ltac:(lia) : (i - List.length ts < List.length bs)%nat)).
    subst x. rewrite app_nth2 by lia.
    simpl. destruct (String.eqb_spec (nth (i - List.length ts) bs "") "") as [E|_];
      [rewrite app_nth2 in Hx by lia; contradiction|]. reflexivity.
Qed.

Lemma next_questions_done (m : nat) (g : Gui) :
  next_question g = (g, Ret PNone) ->
  next_questions (S m) g = (g, Ret (repeat PNone (S m))).
Proof.
  intros H. induction m as [|m IH].
  - simpl. unfold bindM. rewrite H. reflexivity.
  - change (next_questions (S (S m)) g)
      with (bindM next_question (fun q => bindM (next_questions (S m))
                                             (fun qs => retM (q :: qs))) g).
    unfold bindM at 1. rewrite H. unfold bindM. rewrite IH. reflexivity.
Qed.

Lemma next_questions_from (ts bs : list string) :
  Forall (fun s => s <> "") (ts ++ bs) ->
  forall k m i g,
  technical_questions (test_manager g) = PList (map PStr ts) ->
  behavioral_questions (test_manager g) = PList (map PStr bs) ->
  question_index (test_manager g) = i ->
  (i + k = List.length ts + List.length bs)%nat ->
  next_questions (k + S m) g =
    (set_tm (tm_set_index (i + k) (test_manager g)) g,
     Ret (map PStr (skipn i (ts ++ bs)) ++ repeat PNone (S m))%list).
Proof.
  intros Hne k. induction k as [|k IH]; intros m i g Ht Hb Hi Hk.
  - rewrite Nat.add_0_r. rewrite Nat.add_0_r in Hk. simpl Nat.add.
    rewrite skipn_all2 by (rewrite length_app; lia). simpl map. rewrite app_nil_l.
    subst i. rewrite set_tm_index_same. apply next_questions_done.
    unfold next_question, getTM, bindM, getM, retM, liftR.
    rewrite Ht, Hb. simpl. rewrite !length_map.
    destruct (Nat.ltb_spec (question_index (test_manager g)) (List.length ts)); [lia|].
    destruct (Nat.ltb_spec (question_index (test_manager g)) (List.length ts + List.length bs));
      [lia|]. reflexivity.
  - assert (Hlt : (i < List.length (ts ++ bs))%nat) by (rewrite length_app; lia).
    set (x := nth i (ts ++ bs) "").
    assert (Hnq : next_question g =
              (set_tm (tm_set_index (S i) (test_manager g)) g, Ret (PStr x)))
      by (apply (next_question_at ts bs); auto; lia).
    change (next_questions (S k + S m))
      with (q <- next_question ;; qs <- next_questions (k + S m) ;; retM (q :: qs)).
    unfold bindM at 1. rewrite Hnq. cbv beta iota.
    set (g1 := set_tm (tm_set_index (S i) (test_manager g)) g).
    unfold bindM.
    rewrite (IH m (S i) g1) by (subst g1; destruct g as [h [] d p r]; simpl in *; auto; lia).
    unfold retM. subst g1. rewrite set_tm_index_twice.
    rewrite (skipn_cons_nth (ts ++ bs) i "") by exact Hlt.
    replace (i + S k)%nat with (S i + k)%nat by lia. reflexivity.
Qed.

(** X5: from a fresh index, successive [next_question] calls return the
    technical questions, then the behavioral ones, in order, then [None]
    for every further call; the index stops at the number of questions. *)
Theorem next_question_sequence (ts bs : list string) (m : nat) (g : Gui) :
  Forall (fun s => s <> "") (ts ++ bs) ->
  technical_questions (test_manager g) = PList (map PStr ts) ->
  behavioral_questions (test_manager g) = PList (map PStr bs) ->
  question_index (test_manager g) = 0%nat ->
  next_questions (List.length ts + List.length bs + S m) g =
    (set_tm (tm_set_index (List.length ts + List.length bs) (test_manager g)) g,
     Ret (map PStr (ts ++ bs) ++ repeat PNone (S m))%list).
Proof.
  intros Hne Ht Hb Hi.
  exact (next_questions_from ts bs Hne (List.length ts + List.length bs) m 0 g Ht Hb Hi eq_refl).
Qed.

(* ------------------------------------------------------------------ *)
(** ** The JSON object cut out of a reply *)

Lemma str_app_assoc (a b c : string) : (a ++ b) ++ c = a ++ (b ++ c).
Proof. induction a as [|x a IH]; simpl; [reflexivity|rewrite IH; reflexivity]. Qed.

Lemma list_ascii_app (s t : string) :
  list_ascii_of_string (s ++ t) = (list_ascii_of_string s ++ list_ascii_of_string t)%list.
Proof. induction s as [|x s IH]; simpl; [reflexivity|rewrite IH; reflexivity]. Qed.

Lemma str_length_app (s t : string) : String.length (s ++ t) = (String.length s + String.length t)%nat.
Proof. induction s as [|x s IH]; simpl; [reflexivity|rewrite IH; reflexivity]. Qed.

Lemma find_from_first (c : ascii) (pre r : string) (i : Z) :
  has_char c pre = false -> find_from c (pre ++ String c r) i = (i + Z.of_nat (String.length pre))%Z.
Proof.
  revert i. induction pre as [|x pre IH]; intros i H; simpl.
  - rewrite Ascii.eqb_refl. lia.
  - simpl in H. apply orb_false_iff in H as [H1 H2]. rewrite H1.
    rewrite IH by exact H2. lia.
Qed.

Lemma rfind_from_app (c : ascii) (a b : string) (i best : Z) :
  rfind_from c (a ++ b) i best =
    rfind_from c b (i + Z.of_nat (String.length a)) (rfind_from c a i best).
Proof.
  revert i best. induction a as [|x a IH]; intros i best; simpl.
  - rewrite Z.add_0_r. reflexivity.
  - rewrite IH. f_equal. lia.
Qed.

Lemma rfind_from_none (c : ascii) (s : string) (i best : Z) :
  has_char c s = false -> rfind_from c s i best = best.
Proof.
  revert i best. induction s as [|x s IH]; intros i best H; simpl; [reflexivity|].
  simpl in H. apply orb_false_iff in H as [H1 H2]. rewrite H1. apply IH, H2.
Qed.

Lemma substring_app_r (pre t : string) (n m : nat) :
  substring (String.length pre + n) m (pre ++ t) = substring n m t.
Proof. induction pre as [|x pre IH]; simpl; [reflexivity|exact IH]. Qed.

Lemma substring_prefix (x y : string) : substring 0 (String.length x) (x ++ y) = x.
Proof. induction x as [|c x IH]; simpl; [destruct y; reflexivity|rewrite IH; reflexivity]. Qed.

(** [str.strip()] leaves a text alone whose ends are not white space. *)
Lemma rev_string_involutive (s : string) : rev_string (rev_string s) = s.
Proof.
  unfold rev_string. rewrite list_ascii_of_string_of_list_ascii, rev_involutive.
  apply string_of_list_ascii_of_string.
Qed.

Lemma py_strip_id (c d : ascii) (r : string) :
  is_space c = false -> is_space d = false ->
  py_strip (String c (r ++ String d "")) = String c (r ++ String d "").
Proof.
  intros Hc Hd. unfold py_strip. cbn [lstrip]. rewrite Hc.
  assert (E : rev_string (String c (r ++ String d "")) =
              String d (rev_string (String c r))).
  { unfold rev_string. cbn [list_ascii_of_string]. rewrite list_ascii_app.
    cbn [list_ascii_of_string rev]. rewrite rev_app_distr. reflexivity. }
  rewrite E. cbn [lstrip]. rewrite Hd. rewrite <- E. apply rev_string_involutive.
Qed.

(** X8: [gemini_generate_questions] hands [json.loads] exactly the text from
    the first '{' to the last '}' of the reply, whatever prose surrounds it. *)
Theorem json_capture_object (pre body post : string) :
  has_char "{" pre = false -> has_char "}" post = false ->
  json_capture (pre ++ String "{" (body ++ String "}" post)) = String "{" (body ++ "}").
Proof.
  intros Hpre Hpost.
  set (raw := pre ++ String "{" (body ++ String "}" post)).
  assert (Hs : py_find raw "{" = Z.of_nat (String.length pre)).
  { unfold py_find, raw. rewrite find_from_first by exact Hpre. lia. }
  assert (He : py_rfind raw "}" = Z.of_nat (String.length pre + S (String.length body))).
  { unfold py_rfind, raw.
    replace (pre ++ String "{" (body ++ String "}" post))
      with ((pre ++ String "{" body) ++ String "}" post) by (rewrite str_app_assoc; reflexivity).
    rewrite rfind_from_app. cbn [rfind_from]. rewrite Ascii.eqb_refl.
    rewrite rfind_from_none by exact Hpost. rewrite str_length_app. simpl. lia. }
  unfold json_capture. rewrite Hs, He.
  destruct (Z.eqb_spec (Z.of_nat (String.length pre)) (-1)); [lia|].
  destruct (Z.eqb_spec (Z.of_nat (String.length pre + S (String.length body))) (-1)); [lia|].
  destruct (Z.ltb_spec (Z.of_nat (String.length pre))
                       (Z.of_nat (String.length pre + S (String.length body)))); [|lia].
  cbn [negb andb].
  replace (Z.to_nat (Z.of_nat (String.length pre))) with (String.length pre + 0)%nat by lia.
  replace (Z.to_nat (Z.of_nat (String.length pre + S (String.length body)) + 1
                     - Z.of_nat (String.length pre)))
    with (String.length (String "{" (body ++ "}"))) by (simpl; rewrite str_length_app; simpl; lia).
  unfold raw. rewrite substring_app_r.
  replace (String "{" (body ++ String "}" post)) with (String "{" (body ++ "}") ++ post)
    by (simpl; rewrite str_app_assoc; reflexivity).
  rewrite substring_prefix. apply py_strip_id; reflexivity.
Qed.

(* ------------------------------------------------------------------ *)
(** *** Slicing lemmas *)

Lemma drop_cons (n : nat) (c : ascii) (r : string) : drop (S n) (String c r) = drop n r.
Proof. reflexivity. Qed.

Lemma drop_empty (n : nat) : drop n "" = "".
Proof. destruct n; reflexivity. Qed.

Lemma drop_0 (s : string) : drop 0 s = s.
Proof.
  unfold drop. rewrite Nat.sub_0_r.
  induction s as [|c s IH]; [reflexivity|simpl; rewrite IH; reflexivity].
Qed.

Lemma drop_length (n : nat) (s : string) : String.length (drop n s) = (String.length s - n)%nat.
Proof.
  revert s. induction n as [|n IH]; intros s.
  - rewrite drop_0. lia.
  - destruct s as [|c r]; [reflexivity|]. rewrite drop_cons, IH. reflexivity.
Qed.

Lemma drop_drop (a b : nat) (s : string) : drop a (drop b s) = drop (b + a) s.
Proof.
  revert s. induction b as [|b IH]; intros s.
  - rewrite drop_0. reflexivity.
  - destruct s as [|c r]; [rewrite !drop_empty; reflexivity|].
    rewrite drop_cons. simpl Nat.add. rewrite drop_cons. apply IH.
Qed.

Lemma substring_drop (a n : nat) (s : string) : substring a n s = substring 0 n (drop a s).
Proof.
  revert s. induction a as [|a IH]; intros s.
  - rewrite drop_0. reflexivity.
  - destruct s as [|c r]; [destruct n; reflexivity|]. rewrite drop_cons. apply IH.
Qed.

Lemma take_drop (j : nat) (s : string) : substring 0 j s ++ drop j s = s.
Proof.
  revert j. induction s as [|c r IH]; intros j.
  - destruct j; reflexivity.
  - destruct j.
    + rewrite drop_0. reflexivity.
    + simpl substring. rewrite drop_cons. simpl. rewrite IH. reflexivity.
Qed.

Lemma prefix_split (p t : string) : String.prefix p t = true -> t = p ++ drop (String.length p) t.
Proof.
  revert t. induction p as [|c p IH]; intros t H.
  - rewrite drop_0. reflexivity.
  - destruct t as [|d t]; [discriminate|]. simpl in H.
    destruct (ascii_dec c d) as [<-|]; [|discriminate].
    simpl String.length. rewrite drop_cons. simpl. rewrite <- (IH t H). reflexivity.
Qed.

Lemma prefix_length (p t : string) : String.prefix p t = true -> (String.length p <= String.length t)%nat.
Proof.
  intros H. rewrite (prefix_split p t H), str_length_app. lia.
Qed.

(** Where [find_sub_from] stops, [pat] occurs. *)
Lemma find_sub_from_spec (pat s : string) (i k : nat) :
  pat <> "" -> find_sub_from pat s i = Some k ->
  (i <= k)%nat /\ String.prefix pat (drop (k - i) s) = true.
Proof.
  intros Hp. revert i. induction s as [|c r IH]; intros i H; cbn [find_sub_from] in H.
  - destruct (String.eqb_spec pat ""); [contradiction|discriminate].
  - destruct (String.prefix pat (String c r)) eqn:Hpre.
    + injection H as <-. rewrite Nat.sub_diag, drop_0. split; [lia|exact Hpre].
    + destruct (IH (S i) H) as [Hle Hq]. split; [lia|].
      replace (k - i)%nat with (S (k - S i)) by lia. rewrite drop_cons. exact Hq.
Qed.

(** [find_sub] finds the first occurrence. *)
Lemma find_sub_from_first (pat s : string) (i k : nat) :
  find_sub_from pat s i = Some k ->
  forall j, (j < k - i)%nat -> String.prefix pat (drop j s) = false.
Proof.
  revert i. induction s as [|c r IH]; intros i H j Hj; cbn [find_sub_from] in H.
  - destruct pat as [|c0 p0]; simpl in H; [injection H as <-; lia|discriminate].
  - destruct (String.prefix pat (String c r)) eqn:Hpre.
    + injection H as <-. lia.
    + destruct j as [|j]; [rewrite drop_0; exact Hpre|].
      rewrite drop_cons. apply (IH (S i) H). lia.
Qed.

Lemma pair_match_end_eq (pat line : string) :
  pair_match_end pat line = option_map snd (pair_match pat line).
Proof.
  unfold pair_match_end, pair_match.
  destruct (find_sub line pat); [|reflexivity].
  destruct (find_sub _ pat); reflexivity.
Qed.

(** The match: [line = line[:start] + pat + group + pat + line[end:]]. *)
Lemma pair_match_split (pat line : string) (start end_ : nat) :
  pat <> "" -> pair_match pat line = Some (start, end_) ->
  line = substring 0 start line ++ pat ++ pair_group pat line start end_ ++ pat ++ drop end_ line
  /\ (String.length pat + String.length pat <= end_)%nat
  /\ (end_ <= String.length line)%nat.
Proof.
  intros Hp H. unfold pair_match in H.
  destruct (find_sub line pat) as [p|] eqn:Hf; [|discriminate].
  destruct (find_sub (drop (p + String.length pat) line) pat) as [q|] eqn:Hg; [|discriminate].
  injection H as <- <-.
  destruct (find_sub_from_spec pat line 0 p Hp Hf) as [_ Hpre1]. rewrite Nat.sub_0_r in Hpre1.
  destruct (find_sub_from_spec pat _ 0 q Hp Hg) as [_ Hpre2]. rewrite Nat.sub_0_r in Hpre2.
  set (rest1 := drop (p + String.length pat) line) in *.
  assert (E1 : drop p line = pat ++ rest1).
  { rewrite (prefix_split pat (drop p line) Hpre1) at 1. unfold rest1. rewrite drop_drop. reflexivity. }
  assert (E2 : drop q rest1 = pat ++ drop (q + String.length pat) rest1).
  { rewrite (prefix_split pat (drop q rest1) Hpre2) at 1. rewrite drop_drop. reflexivity. }
  assert (Hg1 : pair_group pat line p (p + String.length pat + q + String.length pat) =
                substring 0 q rest1).
  { unfold pair_group. rewrite substring_drop. f_equal. lia. }
  assert (Hd : drop (p + String.length pat + q + String.length pat) line =
               drop (q + String.length pat) rest1).
  { unfold rest1. rewrite drop_drop. f_equal. lia. }
  assert (Hl : String.length line = (p + String.length pat + String.length rest1)%nat).
  { pose proof (take_drop p line) as T. rewrite E1 in T.
    rewrite <- T at 1. rewrite !str_length_app.
    assert (String.length (substring 0 p line) = p).
    { assert (Hpl : (p + String.length pat <= String.length line)%nat).
      { pose proof (prefix_length _ _ Hpre1). rewrite drop_length in H. 
        assert (String.length pat > 0)%nat by (destruct pat; [contradiction|simpl; lia]). lia. }
      clear -Hpl. revert p Hpl. induction line as [|c r IH]; intros p Hpl; destruct p; simpl in *;
        try lia. rewrite IH; lia. }
    lia. }
  assert (Hq : (q + String.length pat <= String.length rest1)%nat).
  { pose proof (prefix_length _ _ Hpre2). rewrite drop_length in H. 
    assert (String.length pat > 0)%nat by (destruct pat; [contradiction|simpl; lia]). lia. }
  rewrite Hg1, Hd. split; [|split; lia].
  rewrite <- (take_drop p line) at 1. rewrite E1. f_equal. f_equal.
  rewrite <- (take_drop q rest1) at 1. rewrite E2. reflexivity.
Qed.

(* ------------------------------------------------------------------ *)
(** *** The loop stops exactly when the hang model says so *)

Lemma md_prepend_hang ins r : md_prepend ins r = MdHang <-> r = MdHang.
Proof. destruct r; simpl; split; congruence. Qed.

Lemma md_prepend_out ins r : md_prepend ins r = MdOut <-> r = MdOut.
Proof. destruct r; simpl; split; congruence. Qed.

Lemma md_loop_hang_iff (fuel : nat) (line leftover : string) :
  md_loop fuel line leftover = MdHang <-> md_loop_hangs fuel line = true.
Proof.
  revert line leftover. induction fuel as [|f IH]; intros line leftover; simpl.
  - split; discriminate.
  - destruct (negb (has_sub line "**") && negb (has_sub line "`")); [split; discriminate|].
    rewrite !pair_match_end_eq.
    destruct (pair_match "**" line) as [[s e]|]; simpl.
    + rewrite md_prepend_hang. apply IH.
    + destruct (pair_match "`" line) as [[s e]|]; simpl.
      * rewrite md_prepend_hang. apply IH.
      * split; reflexivity.
Qed.

Lemma md_loop_enough_fuel (fuel : nat) (line leftover : string) :
  (String.length line < fuel)%nat -> md_loop fuel line leftover <> MdOut.
Proof.
  revert line leftover. induction fuel as [|f IH]; intros line leftover Hf; [lia|]. simpl.
  destruct (negb (has_sub line "**") && negb (has_sub line "`")); [discriminate|].
  destruct (pair_match "**" line) as [[s e]|] eqn:Hb.
  - rewrite md_prepend_out. apply IH.
    destruct (pair_match_split "**" line s e ltac:(discriminate) Hb) as [_ [He1 He2]].
    rewrite drop_length. simpl in He1. lia.
  - destruct (pair_match "`" line) as [[s e]|] eqn:Hc; [|discriminate].
    rewrite md_prepend_out. apply IH.
    destruct (pair_match_split "`" line s e ltac:(discriminate) Hc) as [_ [He1 He2]].
    rewrite drop_length. simpl in He1. lia.
Qed.

Lemma format_line_none (line leftover : string) :
  format_line line leftover = None <-> md_line_hangs line = true.
Proof.
  unfold format_line, md_line_hangs.
  destruct (String.prefix "###" line); [split; discriminate|].
  destruct (String.prefix bullet (py_strip line)); [split; discriminate|].
  rewrite <- (md_loop_hang_iff _ line leftover).
  pose proof (md_loop_enough_fuel (S (String.length line)) line leftover ltac:(lia)) as Hn.
  destruct (md_loop (S (String.length line)) line leftover); split; congruence.
Qed.

Lemma format_lines_none (lines : list string) (leftover : string) :
  format_lines lines leftover = None <-> existsb md_line_hangs lines = true.
Proof.
  revert leftover. induction lines as [|line rest IH]; intros leftover; simpl.
  - split; discriminate.
  - destruct (format_line line leftover) as [[ins lo]|] eqn:Hl.
    + assert (Hh : md_line_hangs line = false).
      { destruct (md_line_hangs line) eqn:E; [|reflexivity].
        apply (format_line_none line leftover) in E. congruence. }
      rewrite Hh. simpl. rewrite <- (IH lo).
      destruct (format_lines rest lo); split; congruence.
    + apply format_line_none in Hl. rewrite Hl. split; reflexivity.
Qed.

(** X9: [format_markdown] never returns exactly when [add_message] is modelled
    as looping: the full insert-by-insert model and the hang model agree. *)
Theorem format_markdown_none_iff_hangs (text : string) :
  format_markdown text = None <-> format_markdown_hangs text = true.
Proof. apply format_lines_none. Qed.

(* ------------------------------------------------------------------ *)
(** *** No text is lost on plain lines *)

(** The inserted text with the markers put back around bold and code. *)
Definition md_render (piece : string * md_tag) : string :=
  match snd piece with
  | TagBold => "**" ++ fst piece ++ "**"
  | TagCode => "`" ++ fst piece ++ "`"
  | _ => fst piece
  end.

Fixpoint md_text (ins : list (string * md_tag)) : string :=
  match ins with
  | [] => ""
  | p :: r => md_render p ++ md_text r
  end.

Lemma md_text_app (a b : list (string * md_tag)) : md_text (a ++ b) = md_text a ++ md_text b.
Proof. induction a as [|p a IH]; simpl; [reflexivity|rewrite IH, str_app_assoc; reflexivity]. Qed.

Lemma str_app_nil_r (s : string) : s ++ "" = s.
Proof. induction s as [|c s IH]; simpl; [reflexivity|rewrite IH; reflexivity]. Qed.

Lemma md_prepend_done ins r ins' line' lo' :
  md_prepend ins r = MdDone ins' line' lo' ->
  exists ins0, r = MdDone ins0 line' lo' /\ ins' = (ins ++ ins0)%list.
Proof. destruct r; simpl; intros H; inversion H; subst; eauto; discriminate. Qed.

Lemma md_loop_text (fuel : nat) (line leftover : string) ins line' leftover' :
  md_loop fuel line leftover = MdDone ins line' leftover' ->
  md_text ins ++ leftover' ++ line' = leftover ++ line.
Proof.
  revert line leftover ins. induction fuel as [|f IH]; intros line leftover ins H; simpl in H;
    [discriminate|].
  destruct (negb (has_sub line "**") && negb (has_sub line "`")).
  { injection H as <- <- <-. reflexivity. }
  destruct (pair_match "**" line) as [[s e]|] eqn:Hb.
  - apply md_prepend_done in H as [ins0 [H ->]]. apply IH in H.
    rewrite md_text_app, str_app_assoc, H. simpl md_text. cbn [md_render fst snd].
    rewrite str_app_nil_r.
    destruct (pair_match_split "**" line s e ltac:(discriminate) Hb) as [E _].
    rewrite E at 4. rewrite !str_app_assoc. simpl. rewrite !str_app_assoc. reflexivity.
  - destruct (pair_match "`" line) as [[s e]|] eqn:Hc; [|discriminate].
    apply md_prepend_done in H as [ins0 [H ->]]. apply IH in H.
    rewrite md_text_app, str_app_assoc, H. simpl md_text. cbn [md_render fst snd].
    rewrite str_app_nil_r.
    destruct (pair_match_split "`" line s e ltac:(discriminate) Hc) as [E _].
    rewrite E at 4. rewrite !str_app_assoc. simpl. rewrite !str_app_assoc. reflexivity.
Qed.

Fixpoint join_lines (lines : list string) : string :=
  match lines with
  | [] => ""
  | l :: r => l ++ nl ++ join_lines r
  end.

Lemma join_split_lines (s cur : string) : join_lines (split_lines_acc s cur) = cur ++ s ++ nl.
Proof.
  revert cur. induction s as [|c r IH]; intros cur; simpl.
  - reflexivity.
  - destruct (Nat.eqb_spec (nat_of_ascii c) 10) as [E|E].
    + simpl. rewrite IH. simpl. f_equal.
      unfold nl, chr. rewrite <- E, ascii_nat_embedding. reflexivity.
    + rewrite IH, str_app_assoc. reflexivity.
Qed.

Definition plain_line (line : string) : Prop :=
  String.prefix "###" line = false /\ String.prefix bullet (py_strip line) = false.

Lemma format_lines_text (lines : list string) ins :
  Forall plain_line lines -> format_lines lines "" = Some ins -> md_text ins = join_lines lines.
Proof.
  revert ins. induction lines as [|line rest IH]; intros ins Hp H; simpl in H.
  - injection H as <-. reflexivity.
  - inversion Hp as [|? ? [H1 H2] Hr]; subst.
    unfold format_line in H. rewrite H1, H2 in H.
    destruct (md_loop (S (String.length line)) line "") as [ins0 line' lo'| |] eqn:Hm;
      try discriminate.
    destruct (format_lines rest "") as [ins'|] eqn:Hrest; [|discriminate].
    injection H as <-. apply md_loop_text in Hm. simpl in Hm.
    rewrite !md_text_app, (IH ins' Hr eq_refl). simpl md_text. cbn [md_render fst snd].
    simpl join_lines. rewrite str_app_nil_r, <- Hm, !str_app_assoc. reflexivity.
Qed.

(** X10: on text with no heading or bullet line, [format_markdown] loses
    nothing: the inserted pieces, with the [**] and backtick markers put
    back around bold and code pieces, spell the text and a final newline. *)
Theorem format_markdown_keeps_text (text : string) ins :
  Forall plain_line (split_lines text) ->
  format_markdown text = Some ins ->
  md_text ins = text ++ nl.
Proof.
  intros Hp H. rewrite (format_lines_text _ ins Hp H). unfold split_lines.
  apply join_split_lines.
Qed.

(* ------------------------------------------------------------------ *)
(** ** One answer in the middle of a test *)







(* ------------------------------------------------------------------ *)
(** *** Bold and code pieces never hold their own marker *)

Lemma prefix_take (p t : string) (n : nat) :
  String.prefix p (substring 0 n t) = true ->
  String.prefix p t = true /\ (String.length p <= n)%nat.
Proof.
  revert t n. induction p as [|c p IH]; intros t n H.
  - split; [destruct t; reflexivity|simpl; lia].
  - destruct n as [|n]; [destruct t; discriminate|].
    destruct t as [|d t]; [discriminate|]. simpl in H |- *.
    destruct (ascii_dec c d); [|discriminate].
    destruct (IH t n H) as [H1 H2]. split; [exact H1|lia].
Qed.

Lemma drop_take (j q : nat) (s : string) :
  drop j (substring 0 q s) = substring 0 (q - j) (drop j s).
Proof.
  revert q s. induction j as [|j IH]; intros q s.
  - rewrite !drop_0, Nat.sub_0_r. reflexivity.
  - destruct s as [|c r].
    + replace (substring 0 q "") with "" by (destruct q; reflexivity).
      rewrite !drop_empty. destruct (q - S j)%nat; reflexivity.
    + destruct q as [|q].
      * simpl substring at 1. rewrite drop_empty, drop_cons. simpl Nat.sub.
        destruct (drop j r); reflexivity.
      * simpl substring at 1. rewrite !drop_cons. simpl Nat.sub. apply IH.
Qed.

(** Up to the first occurrence of [pat] there is no [pat]. *)
Lemma before_first_no_sub (pat s : string) (q : nat) :
  pat <> "" -> find_sub_from pat s 0 = Some q -> has_sub (substring 0 q s) pat = false.
Proof.
  intros Hp Hq. unfold has_sub, find_sub.
  destruct (find_sub_from pat (substring 0 q s) 0) as [n|] eqn:F; [|reflexivity].
  exfalso. destruct (find_sub_from_spec pat _ 0 n Hp F) as [_ Hn].
  rewrite Nat.sub_0_r, drop_take in Hn. apply prefix_take in Hn as [Hn Hl].
  assert (String.length pat > 0)%nat by (destruct pat; [contradiction|simpl; lia]).
  assert (Hlt : (n < q - 0)%nat) by lia.
  rewrite (find_sub_from_first pat s 0 q Hq n Hlt) in Hn. discriminate.
Qed.

Lemma pair_group_no_sub (pat line : string) (start end_ : nat) :
  pat <> "" -> pair_match pat line = Some (start, end_) ->
  has_sub (pair_group pat line start end_) pat = false.
Proof.
  intros Hp H. unfold pair_match in H.
  destruct (find_sub line pat) as [p|] eqn:Hf; [|discriminate].
  destruct (find_sub (drop (p + String.length pat) line) pat) as [q|] eqn:Hg; [|discriminate].
  injection H as <- <-.
  unfold pair_group. rewrite substring_drop.
  replace (p + String.length pat + q + String.length pat - String.length pat
           - (p + String.length pat))%nat with q by lia.
  apply before_first_no_sub; assumption.
Qed.

Definition md_pieces_ok (ins : list (string * md_tag)) : Prop :=
  forall s, (In (s, TagBold) ins -> has_sub s "**" = false) /\
            (In (s, TagCode) ins -> has_sub s "`" = false).

Lemma md_pieces_ok_app a b : md_pieces_ok a -> md_pieces_ok b -> md_pieces_ok (a ++ b).
Proof.
  intros Ha Hb s. destruct (Ha s) as [A1 A2]. destruct (Hb s) as [B1 B2].
  split; intros H; apply in_app_or in H as [H|H]; auto.
Qed.

Lemma md_pieces_ok_other (ins : list (string * md_tag)) :
  Forall (fun p => snd p <> TagBold /\ snd p <> TagCode) ins -> md_pieces_ok ins.
Proof.
  intros H s. rewrite Forall_forall in H.
  split; intros Hin; destruct (H _ Hin) as [H1 H2]; simpl in *; contradiction.
Qed.

Lemma md_loop_pieces (fuel : nat) (line leftover : string) ins line' leftover' :
  md_loop fuel line leftover = MdDone ins line' leftover' -> md_pieces_ok ins.
Proof.
  revert line leftover ins. induction fuel as [|f IH]; intros line leftover ins H; simpl in H;
    [discriminate|].
  destruct (negb (has_sub line "**") && negb (has_sub line "`")).
  { injection H as <- _ _. intros s; split; intros []. }
  destruct (pair_match "**" line) as [[st e]|] eqn:Hb.
  - apply md_prepend_done in H as [ins0 [H ->]]. apply md_pieces_ok_app; [|exact (IH _ _ _ H)].
    intros s. split.
    + intros [E|[E|[]]]; injection E as <-; [discriminate|].
      apply pair_group_no_sub; [discriminate|exact Hb].
    + intros [E|[E|[]]]; discriminate.
  - destruct (pair_match "`" line) as [[st e]|] eqn:Hc; [|discriminate].
    apply md_prepend_done in H as [ins0 [H ->]]. apply md_pieces_ok_app; [|exact (IH _ _ _ H)].
    intros s. split.
    + intros [E|[E|[]]]; discriminate.
    + intros [E|[E|[]]]; injection E as <-; [discriminate|].
      apply pair_group_no_sub; [discriminate|exact Hc].
Qed.

Lemma format_lines_pieces (lines : list string) (leftover : string) ins :
  format_lines lines leftover = Some ins -> md_pieces_ok ins.
Proof.
  revert leftover ins. induction lines as [|line rest IH]; intros leftover ins H; simpl in H.
  - injection H as <-. intros s; split; intros [].
  - destruct (format_line line leftover) as [[ins0 lo]|] eqn:Hl; [|discriminate].
    destruct (format_lines rest lo) as [ins'|] eqn:Hr; [|discriminate].
    injection H as <-. apply md_pieces_ok_app; [|exact (IH _ _ Hr)].
    unfold format_line in Hl.
    destruct (String.prefix "###" line).
    { injection Hl as <- _. apply md_pieces_ok_other. repeat constructor; discriminate. }
    destruct (String.prefix bullet (py_strip line)).
    { injection Hl as <- _. apply md_pieces_ok_other. repeat constructor; discriminate. }
    destruct (md_loop (S (String.length line)) line leftover) as [i0 l' lo'| |] eqn:Hm;
      try discriminate.
    injection Hl as <- _. apply md_pieces_ok_app; [exact (md_loop_pieces _ _ _ _ _ _ Hm)|].
    apply md_pieces_ok_other. repeat constructor; discriminate.
Qed.

(** X11: every bold piece [format_markdown] inserts is free of [**], and every
    code piece is free of backticks: a match always ends at the first
    closing marker. *)
Theorem format_markdown_pieces_unmarked (text s : string) ins :
  format_markdown text = Some ins ->
  (In (s, TagBold) ins -> has_sub s "**" = false) /\
  (In (s, TagCode) ins -> has_sub s "`" = false).
Proof. intros H. exact (format_lines_pieces _ _ _ H s). Qed.

(* ------------------------------------------------------------------ *)
(** ** Witnesses *)

Lemma chat_display_append_only_witness :
  let g' := fst (send_message post_500 json_loads_lite no_profanity "hello" init_gui) in
  clos_refl_trans Gui (gui_step post_500 json_loads_lite no_profanity) init_gui g' /\
  exists rest, chat_display g' = (chat_display init_gui ++ rest)%list.
Proof.
  intros g'.
  assert (H : clos_refl_trans Gui (gui_step post_500 json_loads_lite no_profanity) init_gui g')
    by (apply rt_step, step_send).
  split; [exact H|].
  exact (chat_display_append_only post_500 json_loads_lite no_profanity init_gui g' H).
Defined.

Lemma send_message_echo_first_witness :
  (is_processing init_gui = false /\ py_strip " hello " <> "" /\
   format_markdown_hangs (py_strip " hello " ++ nl ++ nl) = false) /\
  exists rest,
    chat_display (fst (send_message post_500 json_loads_lite no_profanity " hello " init_gui)) =
      (chat_display init_gui ++ ("You", py_strip " hello ", false) :: rest)%list.
Proof.
  assert (H1 : is_processing init_gui = false) by reflexivity.
  assert (H2 : py_strip " hello " <> "") by (vm_compute; discriminate).
  assert (H3 : format_markdown_hangs (py_strip " hello " ++ nl ++ nl) = false)
    by (vm_compute; reflexivity).
  split; [repeat split; assumption|].
  exact (send_message_echo_first post_500 json_loads_lite no_profanity " hello " init_gui H1 H2 H3).
Defined.

(** A session with two technical questions and one behavioral question. *)
Definition small_session : Gui :=
  mkGui [] (mkTM true 0 "Acme" "Dev" (PList (map PStr ["t1"; "t2"])) (PList (map PStr ["b1"])) [])
        [] true [].

Lemma next_question_sequence_witness :
  (Forall (fun s => s <> "") (["t1"; "t2"] ++ ["b1"]) /\
   technical_questions (test_manager small_session) = PList (map PStr ["t1"; "t2"]) /\
   behavioral_questions (test_manager small_session) = PList (map PStr ["b1"]) /\
   question_index (test_manager small_session) = 0%nat) /\
  next_questions (2 + 1 + S 1) small_session =
    (set_tm (tm_set_index 3 (test_manager small_session)) small_session,
     Ret [PStr "t1"; PStr "t2"; PStr "b1"; PNone; PNone]).
Proof.
  assert (H1 : Forall (fun s => s <> "") (["t1"; "t2"] ++ ["b1"]))
    by (repeat constructor; discriminate).
  assert (H2 : technical_questions (test_manager small_session) = PList (map PStr ["t1"; "t2"]))
    by reflexivity.
  assert (H3 : behavioral_questions (test_manager small_session) = PList (map PStr ["b1"]))
    by reflexivity.
  assert (H4 : question_index (test_manager small_session) = 0%nat) by reflexivity.
  split; [repeat split; assumption|].
  exact (next_question_sequence ["t1"; "t2"] ["b1"] 1 small_session H1 H2 H3 H4).
Defined.

Lemma json_capture_object_witness :
  (has_char "{" "Sure: " = false /\ has_char "}" " Done." = false) /\
  json_capture ("Sure: " ++ String "{" ("x" ++ String "}" " Done.")) = String "{" ("x" ++ "}").
Proof.
  assert (H1 : has_char "{" "Sure: " = false) by reflexivity.
  assert (H2 : has_char "}" " Done." = false) by reflexivity.
  split; [split; assumption|].
  exact (json_capture_object "Sure: " "x" " Done." H1 H2).
Defined.

Definition md_sample : string := "Hello **bold** and `code` end".

Definition md_sample_inserts : list (string * md_tag) :=
  [("Hello ", TagMessage); ("bold", TagBold); (" and ", TagMessage); ("code", TagCode);
   (" end" ++ nl, TagMessage)].

Lemma format_markdown_keeps_text_witness :
  (Forall plain_line (split_lines md_sample) /\ format_markdown md_sample = Some md_sample_inserts) /\
  md_text md_sample_inserts = md_sample ++ nl.
Proof.
  assert (H1 : Forall plain_line (split_lines md_sample))
    by (vm_compute; repeat constructor).
  assert (H2 : format_markdown md_sample = Some md_sample_inserts) by (vm_compute; reflexivity).
  split; [split; assumption|].
  exact (format_markdown_keeps_text md_sample md_sample_inserts H1 H2).
Defined.

Lemma format_markdown_pieces_unmarked_witness :
  format_markdown md_sample = Some md_sample_inserts /\
  (In ("bold", TagBold) md_sample_inserts -> has_sub "bold" "**" = false) /\
  (In ("bold", TagCode) md_sample_inserts -> has_sub "bold" "`" = false).
Proof.
  assert (H : format_markdown md_sample = Some md_sample_inserts) by (vm_compute; reflexivity).
  split; [exact H|].
  exact (format_markdown_pieces_unmarked md_sample "bold" md_sample_inserts H).
Defined.





(** A remote whose text part is the number 5. *)
Definition post_int (_ : pyval) : http_outcome := Response 200 (gemini_body "5").

Lemma send_message_never_raises_witness :
  let g := fst (start_test init_gui) in
  let e := AttributeError "'int' object has no attribute 'strip'" in
  let e' := AttributeError "'int' object has no attribute 'startswith'" in
  snd (handle_test_flow post_int json_loads_lite "Acme" (dispatched g "Acme")) = Throw e /\
  chat_display (fst (send_message post_int json_loads_lite no_profanity "Acme" g)) =
    app (chat_display g) [("You", "Acme", false); ("JoSi", "Error in test flow: " ++ exn_str e, true)] /\
  snd (normal_reply_try post_int json_loads_lite no_profanity "hi" (dispatched init_gui "hi"))
    = Throw e' /\
  chat_display (fst (send_message post_int json_loads_lite no_profanity "hi" init_gui)) =
    [("You", "hi", false); ("JoSi", "Error: " ++ exn_str e', true)].
Proof.
  intros g e e'.
  assert (A1 : is_processing g = false) by reflexivity.
  assert (A2 : py_strip "Acme" <> "") by (vm_compute; discriminate).
  assert (A3 : format_markdown_hangs (py_strip "Acme" ++ nl ++ nl) = false) by (vm_compute; reflexivity).
  assert (A4 : no_profanity (py_strip "Acme") = false) by reflexivity.
  assert (A5 : in_test (test_manager g) = true) by reflexivity.
  assert (A6 : snd (handle_test_flow post_int json_loads_lite (py_strip "Acme")
                      (dispatched g (py_strip "Acme"))) = Throw e) by (vm_compute; reflexivity).
  assert (B1 : is_processing init_gui = false) by reflexivity.
  assert (B2 : py_strip "hi" <> "") by (vm_compute; discriminate).
  assert (B3 : format_markdown_hangs (py_strip "hi" ++ nl ++ nl) = false) by (vm_compute; reflexivity).
  assert (B4 : no_profanity (py_strip "hi") = false) by reflexivity.
  assert (B5 : in_test (test_manager init_gui) = false) by reflexivity.
  assert (B6 : snd (normal_reply_try post_int json_loads_lite no_profanity (py_strip "hi")
                      (dispatched init_gui (py_strip "hi"))) = Throw e') by (vm_compute; reflexivity).
  pose proof (proj1 (proj2 (proj2 (send_message_never_raises post_int json_loads_lite no_profanity
                "Acme" g))) e A1 A2 A3 A4 A5 A6) as T.
  pose proof (proj2 (proj2 (proj2 (send_message_never_raises post_int json_loads_lite no_profanity
                "hi" init_gui))) e' B1 B2 B3 B4 B5 B6) as N.
  split; [exact A6|]. split; [rewrite T; vm_compute; reflexivity|].
  split; [exact B6|]. rewrite N; vm_compute; reflexivity.
Defined.
